(** * The Watson bridge webhook (src/api/watson-bridge.js)

    A shallow embedding of the webhook handler and of the functions it
    dispatches to, followed by the properties of the handler that the
    specification states.

    How the JavaScript program is read:

    - A request body is a parsed JSON document, so the values the program sees
      are [value]s: undefined (an absent field), null, booleans, numbers,
      strings, arrays and objects.  An object is the list of its own fields in
      the order [Object.entries] enumerates them.  Numbers are the integers
      a double holds exactly ([VNum z] with [|z| <= 2^53]): [show] prints
      those as the engine does.  Strings are over an 8-bit alphabet: each
      character is one UTF-16 code unit and one code point, a surrogate pair
      cannot be written.
    - An operation that throws a [TypeError] in JavaScript (reading a field of
      undefined or null, iterating a value that is not iterable, calling a
      method that does not exist, converting an object that shadows
      [toString]) returns [None] here.  The text of such an engine-made error
      is engine-defined and is not modelled: the exception is [TypeError].
    - The asynchronous functions run in the monad [M]: the state is the log of
      the exchanges with the tracker so far, a computation either completes
      normally or throws.  Every [await] in the source is a sequencing point,
      nothing runs concurrently.
    - The host supplies what the program does not define: the tracker's answer
      to each POST ([fetch]), the clock ([now]) and the engine's conversion of
      a string to a number, which only the two [.length > n] guards can reach
      ([string_exceeds]).
    - [console.log] and [console.error] write to the operator's log and are
      left out; the request headers sent to the tracker are constant and are
      left out as well. *)

From Stdlib Require Import String Ascii ZArith List Bool Lia.
From Stdlib Require Import DecimalString.
Import ListNotations.
Open Scope string_scope.
Open Scope Z_scope.

(** ** Strings *)

(** The line feed that ends each line of a template literal. *)
Definition nl : string := String (ascii_of_nat 10) EmptyString.

(** [Number.prototype.toString] on an integer: plain decimal digits, which is
    what the engine prints up to [2^53] in magnitude. *)
Definition show (z : Z) : string := NilZero.string_of_int (Z.to_int z).

(** [Array.prototype.join] on an array of strings. *)
Definition join (sep : string) (parts : list string) : string :=
  String.concat sep parts.

(** ** Values *)

#[local] Set Warnings "-register-all".

Inductive value : Type :=
| VUndefined
| VNull
| VBool (b : bool)
| VNum (n : Z)
| VStr (s : string)
| VArr (elems : list value)
| VObj (fields : list (string * value)).

(** The option monad carries the [TypeError]s of the pure part of the program. *)
Notation "'let?' x ':=' o 'in' k" :=
  (match o with Some x => k | None => None end)
  (at level 10, x pattern, o at level 100, k at level 200).

Fixpoint map_opt {A B : Type} (f : A -> option B) (l : list A) : option (list B) :=
  match l with
  | [] => Some []
  | x :: rest =>
      let? y := f x in
      let? ys := map_opt f rest in
      Some (y :: ys)
  end.

(** ToBoolean. *)
Definition truthy (v : value) : bool :=
  match v with
  | VUndefined | VNull => false
  | VBool b => b
  | VNum n => negb (n =? 0)
  | VStr s => negb (s =? "")%string
  | VArr _ | VObj _ => true
  end.

(** [a || b]: the left operand when it is truthy, the right one otherwise. *)
Definition or_else (a b : value) : value := if truthy a then a else b.

Definition has_key (k : string) (fields : list (string * value)) : bool :=
  existsb (fun kv => (fst kv =? k)%string) fields.

(** ToString, as a template literal applies it to [${...}].  An array prints
    its elements joined by commas, undefined and null elements as nothing.  A
    parsed JSON object prints as [[object Object]] through
    [Object.prototype.toString], unless it has a field [toString] of its own:
    that field is not callable, and the conversion throws. *)
Fixpoint ToString (v : value) : option string :=
  match v with
  | VUndefined => Some "undefined"
  | VNull => Some "null"
  | VBool b => Some (if b then "true" else "false")
  | VNum n => Some (show n)
  | VStr s => Some s
  | VArr elems =>
      (fix joined (l : list value) : option string :=
         match l with
         | [] => Some ""
         | x :: rest =>
             let? s := match x with
                       | VUndefined | VNull => Some ""
                       | _ => ToString x
                       end in
             match rest with
             | [] => Some s
             | _ :: _ => let? r := joined rest in Some (s ++ "," ++ r)
             end
         end) elems
  | VObj fields =>
      if has_key "toString" fields then None else Some "[object Object]"
  end.

(** The value of an own field of an object, undefined when there is none. *)
Definition lookup (k : string) (fields : list (string * value)) : value :=
  match find (fun kv => (fst kv =? k)%string) fields with
  | Some kv => snd kv
  | None => VUndefined
  end.

(** [v.k], for the field names [k] the source reads: none of them is an array
    index or a property inherited from a prototype, and [length] is the only
    one strings and arrays define. *)
Definition get (v : value) (k : string) : option value :=
  match v with
  | VUndefined | VNull => None
  | VBool _ | VNum _ => Some VUndefined
  | VStr s =>
      Some (if (k =? "length")%string then VNum (Z.of_nat (String.length s)) else VUndefined)
  | VArr elems =>
      Some (if (k =? "length")%string then VNum (Z.of_nat (List.length elems)) else VUndefined)
  | VObj fields => Some (lookup k fields)
  end.

(** The elements of a string: its characters, each a string of length one. *)
Definition chars (s : string) : list value :=
  map (fun c => VStr (String c EmptyString)) (list_ascii_of_string s).

(** The index keys "0", "1", ... paired with the elements. *)
Definition indexed {A : Type} (l : list A) : list (string * A) :=
  combine (map (fun i => show (Z.of_nat i)) (seq 0 (List.length l))) l.

(** [Object.entries(v)]. *)
Definition entries (v : value) : option (list (string * value)) :=
  match v with
  | VUndefined | VNull => None
  | VBool _ | VNum _ => Some []
  | VStr s => Some (indexed (chars s))
  | VArr elems => Some (indexed elems)
  | VObj fields => Some fields
  end.

(** The values [for (const x of v)] visits; only arrays and strings are
    iterable among JSON values.  A string is visited by code point, which for
    the strings of this model is by character. *)
Definition iterate (v : value) : option (list value) :=
  match v with
  | VArr elems => Some elems
  | VStr s => Some (chars s)
  | _ => None
  end.

(** [v.substring(0, n)]: only strings have the method. *)
Definition substring_to (n : nat) (v : value) : option string :=
  match v with
  | VStr s => Some (substring 0 n s)
  | _ => None
  end.

(** [action === 'literal']. *)
Definition is_string (v : value) (literal : string) : bool :=
  match v with
  | VStr s => (s =? literal)%string
  | _ => false
  end.

(** [${v || 'fallback'}]. *)
Definition text_or (v : value) (fallback : string) : option string :=
  ToString (or_else v (VStr fallback)).

(** ** The tracker and the host *)

(** The unit sent to the tracker: [JSON.stringify({title, body})]. *)
Record issue : Type := { title : string; body : string }.

(** What the tracker answers: the status line, the body as text, and the body
    as [response.json()] parses it ([None] when it is not JSON). *)
Record reply : Type := { status : Z; text : string; json : option value }.

(** [response.ok]. *)
Definition ok (r : reply) : bool := (200 <=? status r) && (status r <=? 299).

(** One POST to the tracker and its outcome; [None] when [fetch] rejects
    (the tracker was not reached). *)
Record exchange : Type := { sent : issue; outcome : option reply }.

Record host : Type := {
  (** the tracker's answer to a POST, given the exchanges before it *)
  fetch : list exchange -> issue -> option reply;
  (** [new Date().toISOString()] when the response is written *)
  now : string;
  (** whether the number a string converts to is greater than an integer *)
  string_exceeds : string -> Z -> bool
}.

(** An exchange the program takes as a success: a 2xx answer with a JSON body. *)
Definition accepted (x : exchange) : bool :=
  match outcome x with
  | Some r => ok r && match json r with Some _ => true | None => false end
  | None => false
  end.

(** ** Exceptions and the monad of the asynchronous functions *)

Inductive exn : Type :=
| TypeError
| SyntaxError
| Error (message : string).

Inductive completion (A : Type) : Type :=
| Normal (a : A)
| Throw (e : exn).
Arguments Normal {A} a.
Arguments Throw {A} e.

Definition M (A : Type) : Type := list exchange -> completion A * list exchange.

Definition ret {A : Type} (a : A) : M A := fun log => (Normal a, log).

Definition throw {A : Type} (e : exn) : M A := fun log => (Throw e, log).

Definition bind {A B : Type} (m : M A) (k : A -> M B) : M B :=
  fun log =>
    match m log with
    | (Normal a, log') => k a log'
    | (Throw e, log') => (Throw e, log')
    end.

Notation "x <- m ;; k" := (bind m (fun x => k))
  (at level 200, m at level 100, k at level 200, right associativity).

(** A pure step that may throw a [TypeError]. *)
Definition lift {A : Type} (o : option A) : M A :=
  match o with
  | Some a => ret a
  | None => throw TypeError
  end.

(** [for (const x of l) { await f(x) }]. *)
Fixpoint for_each {A : Type} (l : list A) (f : A -> M unit) : M unit :=
  match l with
  | [] => ret tt
  | x :: rest => _ <- f x ;; for_each rest f
  end.

(** ** The responses of the handler *)

Inductive json_body : Type :=
| ErrorBody (error : string)
| FailureBody (error : string) (details : exn)
| SuccessBody (success : bool) (message : string) (timestamp : string).

Record http_response : Type := { status_code : Z; json_of : json_body }.

Record request : Type := { method : string; req_body : value }.

(** ** The program *)

Section Program.

Variable h : host.

(** The relational [v > n] against an integer literal: ToPrimitive with hint
    number, then a numeric comparison.  Undefined converts to NaN, which
    exceeds nothing; arrays and objects convert through their string. *)
Definition greater (v : value) (n : Z) : option bool :=
  match v with
  | VUndefined => Some false
  | VNull => Some (0 >? n)
  | VBool b => Some ((if b then 1 else 0) >? n)
  | VNum z => Some (z >? n)
  | VStr s => Some (string_exceeds h s n)
  | VArr _ | VObj _ => let? s := ToString v in Some (string_exceeds h s n)
  end.

(** Lines 164-184. *)
Definition createGitHubIssue (issueTitle issueBody : string) : M value :=
  fun log =>
    let payload := {| title := issueTitle; body := issueBody |} in
    let answer := fetch h log payload in
    let log' := (log ++ [{| sent := payload; outcome := answer |}])%list in
    match answer with
    | None => (Throw TypeError, log')
    | Some response =>
        if negb (ok response)
        then (Throw (Error ("GitHub API error: " ++ show (status response)
                              ++ " " ++ text response)), log')
        else match json response with
             | Some created => (Normal created, log')
             | None => (Throw SyntaxError, log')
             end
    end.

(** The template of line 151, given the fields of one update. *)
Definition projectLine (project : string) (progress context : value) : option string :=
  let? p := text_or progress "No progress specified" in
  let? c := text_or context "Strategic context from conversation" in
  Some ("**" ++ project ++ ":** " ++ p ++ "% - " ++ c).

(** Lines 147-153. *)
Definition formatProjectUpdates (projects : value) : option string :=
  if negb (truthy projects) then Some "No specific project updates provided"
  else
    let? updates := entries projects in
    let? lines :=
      map_opt (fun '(project, update) =>
                 let? progress := get update "progress" in
                 let? context := get update "context" in
                 projectLine project progress context) updates in
    Some (join nl lines).

(** Lines 155-161. *)
Definition formatDashboardUpdates (data : value) : option string :=
  if negb (truthy data) then Some "General dashboard update from strategic conversation"
  else
    let? projects := get data "projects" in
    if negb (truthy projects)
    then Some "General dashboard update from strategic conversation"
    else
      let? updates := entries projects in
      let? lines :=
        map_opt (fun '(project, value) =>
                   let? v := ToString value in
                   Some (project ++ ": " ++ v)) updates in
      Some (join nl lines).

(** The template of lines 70-84, given the text of the project section. *)
Definition analysisContent (insights : value) (projectText : string) (research : value)
  : option string :=
  let? i := text_or insights "Strategic insights from portfolio discussion" in
  let? r := text_or research
              "Research requirements identified during strategic conversation" in
  Some (nl ++ "Strategic Analysis Update" ++ nl
        ++ nl ++ "## Key Insights" ++ nl
        ++ i ++ nl
        ++ nl ++ "## Project Context Updates" ++ nl
        ++ projectText ++ nl
        ++ nl ++ "## Additional Research Needed" ++ nl
        ++ r ++ nl
        ++ nl ++ "## Strategic Synthesis" ++ nl
        ++ "Cross-project implications and strategic positioning adjustments identified."
        ++ nl).

(** The template of lines 90-94. *)
Definition briefContent (excerpt : string) : string :=
  nl ++ "Strategic insights brief" ++ nl
  ++ "Custom strategic communication" ++ nl
  ++ "Key insights: " ++ excerpt ++ "..." ++ nl
  ++ "    ".

(** [insights && insights.length > 100], as the condition of an [if]. *)
Definition significant (insights : value) : option bool :=
  if truthy insights
  then let? len := get insights "length" in greater len 100
  else Some false.

(** Lines 68-96. *)
Definition processStrategicAnalysis (insights projects research : value) : M unit :=
  issueContent <- lift (let? projectText := formatProjectUpdates projects in
                        analysisContent insights projectText research) ;;
  _ <- createGitHubIssue "[DASHBOARD] Strategic Analysis Update" issueContent ;;
  long <- lift (significant insights) ;;
  if long : bool
  then
    excerpt <- lift (substring_to 200 insights) ;;
    _ <- createGitHubIssue "[EMAIL] Strategic Insights Brief" (briefContent excerpt) ;;
    ret tt
  else ret tt.

(** The template of lines 100-107, given the text of the dashboard section. *)
Definition dashboardContent (updates : string) (currentFocus context : value)
  : option string :=
  let? f := text_or currentFocus "Strategic portfolio execution" in
  let? c := text_or context "Updates from strategic conversation" in
  Some (nl ++ "Dashboard Update with Strategic Context" ++ nl
        ++ nl ++ updates ++ nl
        ++ nl ++ "Focus: " ++ f ++ nl
        ++ "Strategic Context: " ++ c ++ nl).

(** Lines 99-110. *)
Definition updateDashboardWithContext (dashboardData : value) : M unit :=
  issueContent <- lift (let? updates := formatDashboardUpdates dashboardData in
                        let? currentFocus := get dashboardData "currentFocus" in
                        let? context := get dashboardData "context" in
                        dashboardContent updates currentFocus context) ;;
  _ <- createGitHubIssue "[DASHBOARD] Contextual Update" issueContent ;;
  ret tt.

(** The template of lines 115-122, given the fields of one email request. *)
Definition emailContent (type content recipient framework : value) : option string :=
  let? t := text_or type "strategic communication" in
  let? c := text_or content "Strategic communication from portfolio conversation" in
  let? r := text_or recipient "strategic stakeholder" in
  let? f := text_or framework "portfolio-based strategic approach" in
  Some (nl ++ t ++ nl
        ++ nl ++ c ++ nl
        ++ nl ++ "Recipient context: " ++ r ++ nl
        ++ "Strategic framework: " ++ f ++ nl
        ++ "    ").

(** The template of line 124. *)
Definition emailTitle (subject : value) : option string :=
  let? s := text_or subject "Strategic Communication" in
  Some ("[EMAIL] " ++ s).

(** The issue one pass of the loop of lines 114-125 builds. *)
Definition emailIssue (email : value) : option issue :=
  let? type := get email "type" in
  let? content := get email "content" in
  let? recipient := get email "recipient" in
  let? framework := get email "framework" in
  let? issueContent := emailContent type content recipient framework in
  let? subject := get email "subject" in
  let? issueTitle := emailTitle subject in
  Some {| title := issueTitle; body := issueContent |}.

(** Lines 113-126. *)
Definition triggerStrategicEmail (emailRequests : value) : M unit :=
  emails <- lift (iterate emailRequests) ;;
  for_each emails (fun email =>
    i <- lift (emailIssue email) ;;
    _ <- createGitHubIssue (title i) (body i) ;;
    ret tt).

(** [emailRequests && emailRequests.length > 0], as the condition of an [if]. *)
Definition nonempty (emailRequests : value) : option bool :=
  if truthy emailRequests
  then let? len := get emailRequests "length" in greater len 0
  else Some false.

(** Lines 129-144.  The analysis is called without [research]. *)
Definition processComplexStrategicUpdate
  (projectUpdates strategicInsights dashboardData emailRequests : value) : M unit :=
  _ <- (if truthy dashboardData
        then updateDashboardWithContext dashboardData
        else ret tt) ;;
  _ <- (if truthy strategicInsights
        then processStrategicAnalysis strategicInsights projectUpdates VUndefined
        else ret tt) ;;
  some <- lift (nonempty emailRequests) ;;
  if some : bool
  then triggerStrategicEmail emailRequests
  else ret tt.

Definition respond (code : Z) (b : json_body) : http_response :=
  {| status_code := code; json_of := b |}.

(** The [try] block of the handler, lines 8-56. *)
Definition dispatch (body : value) : M http_response :=
  action <- lift (get body "action") ;;
  conversationType <- lift (get body "conversationType") ;;
  projectUpdates <- lift (get body "projectUpdates") ;;
  strategicInsights <- lift (get body "strategicInsights") ;;
  researchNeeds <- lift (get body "researchNeeds") ;;
  emailRequests <- lift (get body "emailRequests") ;;
  dashboardData <- lift (get body "dashboardData") ;;
  if is_string action "strategic-analysis" then
    _ <- processStrategicAnalysis strategicInsights projectUpdates researchNeeds ;;
    ret (respond 200 (SuccessBody true "Strategic update processed successfully" (now h)))
  else if is_string action "dashboard-update" then
    _ <- updateDashboardWithContext dashboardData ;;
    ret (respond 200 (SuccessBody true "Strategic update processed successfully" (now h)))
  else if is_string action "send-email" then
    _ <- triggerStrategicEmail emailRequests ;;
    ret (respond 200 (SuccessBody true "Strategic update processed successfully" (now h)))
  else if is_string action "complex-update" then
    _ <- processComplexStrategicUpdate projectUpdates strategicInsights
           dashboardData emailRequests ;;
    ret (respond 200 (SuccessBody true "Strategic update processed successfully" (now h)))
  else
    ret (respond 400 (ErrorBody "Unknown action type")).

(** Lines 1-65: the response and the exchanges with the tracker, in order. *)
Definition handler (req : request) : http_response * list exchange :=
  if negb (method req =? "POST")%string
  then (respond 405 (ErrorBody "Method not allowed"), [])
  else
    match dispatch (req_body req) [] with
    | (Normal res, log) => (res, log)
    | (Throw error, log) => (respond 500 (FailureBody "Processing failed" error), log)
    end.

(** The issues a run sent to the tracker, in order. *)
Definition calls (run : http_response * list exchange) : list issue :=
  map sent (snd run).

(** Sending one issue, and sending a list of issues in order. *)
Definition post (i : issue) : M unit :=
  _ <- createGitHubIssue (title i) (body i) ;; ret tt.

Definition post_all (plan : list issue) : M unit := for_each plan post.

(** What a call throws when its exchange is not accepted. *)
Definition failure (x : exchange) : exn :=
  match outcome x with
  | None => TypeError
  | Some r =>
      if negb (ok r)
      then Error ("GitHub API error: " ++ show (status r) ++ " " ++ text r)
      else SyntaxError
  end.

(** One call made from the log [log]. *)
Definition exchange_of (log : list exchange) (i : issue) : exchange :=
  {| sent := i; outcome := fetch h log i |}.

(** A tracker that accepts every call. *)
Definition accepts_all : Prop :=
  forall log i, accepted (exchange_of log i) = true.

End Program.

(** ** The shapes of the data model

    The types of section 3 of the specification, as predicates on values.  A
    leaf field is absent or a JSON primitive; a record is an object whose
    listed fields are leaves. *)

Definition is_scalar (v : value) : bool :=
  match v with
  | VArr _ | VObj _ => false
  | _ => true
  end.

(** The field [k] of [v], undefined where JavaScript would throw. *)
Definition field (v : value) (k : string) : value :=
  match get v k with
  | Some x => x
  | None => VUndefined
  end.

Definition is_record (keys : list string) (v : value) : bool :=
  match v with
  | VObj fields => forallb (fun k => is_scalar (lookup k fields)) keys
  | _ => false
  end.

Definition is_mapping (value_shape : value -> bool) (v : value) : bool :=
  match v with
  | VObj fields => forallb (fun kv => value_shape (snd kv)) fields
  | _ => false
  end.

(** [{ progress: number|absent, context: string|absent }]. *)
Definition update_shape : value -> bool := is_record ["progress"; "context"].

(** [projectUpdates]: absent (or another falsy primitive), or a mapping from
    project names to updates. *)
Definition projects_shape (v : value) : bool :=
  (is_scalar v && negb (truthy v)) || is_mapping update_shape v.

(** [dashboardData]: an object with optional [currentFocus] and [context] and
    an optional mapping [projects]. *)
Definition dashboard_shape (v : value) : bool :=
  is_record ["currentFocus"; "context"] v
  && ((is_scalar (field v "projects") && negb (truthy (field v "projects")))
      || is_mapping is_scalar (field v "projects")).

(** One entry of [emailRequests]. *)
Definition email_shape : value -> bool :=
  is_record ["type"; "content"; "recipient"; "framework"; "subject"].

(** [emailRequests]: a sequence of entries. *)
Definition emails_shape (v : value) : bool :=
  match v with
  | VArr emails => forallb email_shape emails
  | _ => false
  end.

(** The text of a formatting step that did not throw. *)
Definition the_text (o : option string) : string :=
  match o with
  | Some s => s
  | None => ""
  end.

(** "<field or 'fallback'>", in the words of the specification. *)
Definition present_or (v : value) (fallback : string) : string :=
  if truthy v then the_text (ToString v) else fallback.

(** "**<project>:** <progress or ...>% - <context or ...>". *)
Definition project_line (entry : string * value) : string :=
  "**" ++ fst entry ++ ":** "
  ++ present_or (field (snd entry) "progress") "No progress specified"
  ++ "% - "
  ++ present_or (field (snd entry) "context") "Strategic context from conversation".

(** "<project>: <value>". *)
Definition dashboard_line (entry : string * value) : string :=
  fst entry ++ ": " ++ the_text (ToString (snd entry)).

(** The issues the three processors are expected to send for a payload of the
    shapes above, in order. *)
Definition analysisIssue (insights projects research : value) : issue :=
  {| title := "[DASHBOARD] Strategic Analysis Update";
     body := the_text (let? projectText := formatProjectUpdates projects in
                       analysisContent insights projectText research) |}.

Definition briefIssue (insights : string) : issue :=
  {| title := "[EMAIL] Strategic Insights Brief";
     body := briefContent (substring 0 200 insights) |}.

Definition analysis_plan (insights projects research : value) : list issue :=
  analysisIssue insights projects research
  :: match insights with
     | VStr s => if (100 <? Z.of_nat (String.length s)) then [briefIssue s] else []
     | _ => []
     end.

Definition dashboardIssue (dashboardData : value) : issue :=
  {| title := "[DASHBOARD] Contextual Update";
     body := the_text (let? updates := formatDashboardUpdates dashboardData in
                       dashboardContent updates (field dashboardData "currentFocus")
                         (field dashboardData "context")) |}.

Definition email_issue (email : value) : issue :=
  {| title := "[EMAIL] " ++ present_or (field email "subject") "Strategic Communication";
     body := the_text (emailContent (field email "type") (field email "content")
                         (field email "recipient") (field email "framework")) |}.

(** The issues a complex update is expected to send: the dashboard issue when
    there is dashboard data, the analysis issues when there are insights, the
    emails when there are email requests. *)
Definition emails_plan (emailRequests : value) : list issue :=
  match emailRequests with
  | VArr emails => map email_issue emails
  | _ => []
  end.

Definition complex_plan (projectUpdates strategicInsights dashboardData emailRequests : value)
  : list issue :=
  ((if truthy dashboardData then [dashboardIssue dashboardData] else [])
   ++ (if truthy strategicInsights
       then analysis_plan strategicInsights projectUpdates VUndefined
       else [])
   ++ emails_plan emailRequests)%list.

Definition complex_shape (projectUpdates strategicInsights dashboardData emailRequests : value)
  : bool :=
  ((is_scalar dashboardData && negb (truthy dashboardData)) || dashboard_shape dashboardData)
  && is_scalar strategicInsights
  && projects_shape projectUpdates
  && ((is_scalar emailRequests && negb (truthy emailRequests)) || emails_shape emailRequests).

(** The four values of [action] the handler dispatches on. *)
Definition recognized (action : value) : bool :=
  is_string action "strategic-analysis" || is_string action "dashboard-update"
  || is_string action "send-email" || is_string action "complex-update".

(** A POST request with the given body. *)
Definition POST (b : value) : request := {| method := "POST"; req_body := b |}.

(** The success envelope. *)
Definition success (timestamp : string) : http_response :=
  respond 200 (SuccessBody true "Strategic update processed successfully" timestamp).

(** A body whose action is recognized and whose fields, as far as the action
    reads them, have the shapes of the data model. *)
Definition payload_shape (b : value) : bool :=
  if is_string (field b "action") "strategic-analysis" then
    is_scalar (field b "strategicInsights")
    && projects_shape (field b "projectUpdates")
    && is_scalar (field b "researchNeeds")
  else if is_string (field b "action") "dashboard-update" then
    dashboard_shape (field b "dashboardData")
  else if is_string (field b "action") "send-email" then
    emails_shape (field b "emailRequests")
  else if is_string (field b "action") "complex-update" then
    complex_shape (field b "projectUpdates") (field b "strategicInsights")
      (field b "dashboardData") (field b "emailRequests")
  else false.

(** The issues a request of such a shape is expected to send, in order. *)
Definition request_plan (b : value) : list issue :=
  if is_string (field b "action") "strategic-analysis" then
    analysis_plan (field b "strategicInsights") (field b "projectUpdates")
      (field b "researchNeeds")
  else if is_string (field b "action") "dashboard-update" then
    [dashboardIssue (field b "dashboardData")]
  else if is_string (field b "action") "send-email" then
    emails_plan (field b "emailRequests")
  else if is_string (field b "action") "complex-update" then
    complex_plan (field b "projectUpdates") (field b "strategicInsights")
      (field b "dashboardData") (field b "emailRequests")
  else [].

(** The same payload with one field left out, and with one field set. *)
Definition without (k : string) (fields : list (string * value)) : list (string * value) :=
  filter (fun kv => negb (fst kv =? k)%string) fields.

Definition set_field (k : string) (v : value) (fields : list (string * value)) : value :=
  VObj ((k, v) :: without k fields).

(** An issue with a title and a body. *)
Definition nonblank (i : issue) : Prop := title i <> "" /\ body i <> "".

(** How a run may end: every exchange was accepted, or the last one was not
    and the run threw what that exchange gives rise to. *)
Definition well_ended {A : Type} (r : completion A) (made : list exchange) : Prop :=
  forallb accepted made = true
  \/ exists before x,
       made = (before ++ [x])%list /\ forallb accepted before = true
       /\ accepted x = false /\ r = Throw (failure x).

(** A computation that only appends to the log, sends nonblank issues and
    stops at the first exchange that is not accepted. *)
Definition disciplined {A : Type} (m : M A) : Prop :=
  forall log, exists made,
    snd (m log) = (log ++ made)%list
    /\ Forall (fun x => nonblank (sent x)) made
    /\ well_ended (fst (m log)) made.

(** A computation whose issues all satisfy [P], however the run ends. *)
Definition emits (P : issue -> Prop) {A : Type} (m : M A) : Prop :=
  forall log, exists made,
    snd (m log) = (log ++ made)%list /\ Forall (fun x => P (sent x)) made.

(** A title that carries one of the two labels of the source. *)
Definition labelled (i : issue) : Prop :=
  String.prefix "[DASHBOARD] " (title i) = true \/ String.prefix "[EMAIL] " (title i) = true.

(** A computation that makes at most [n] calls. *)
Definition at_most (n : nat) {A : Type} (m : M A) : Prop :=
  forall log, exists made,
    snd (m log) = (log ++ made)%list /\ (length made <= n)%nat.

(** The layouts of the four templates, over the texts that fill them (lines
    151, 70-84, 100-107 and 115-122). *)
Definition project_text (project progress context : string) : string :=
  "**" ++ project ++ ":** " ++ progress ++ "% - " ++ context.

Definition analysis_text (insights projectText research : string) : string :=
  nl ++ "Strategic Analysis Update" ++ nl
  ++ nl ++ "## Key Insights" ++ nl
  ++ insights ++ nl
  ++ nl ++ "## Project Context Updates" ++ nl
  ++ projectText ++ nl
  ++ nl ++ "## Additional Research Needed" ++ nl
  ++ research ++ nl
  ++ nl ++ "## Strategic Synthesis" ++ nl
  ++ "Cross-project implications and strategic positioning adjustments identified."
  ++ nl.

Definition dashboard_text (updates currentFocus context : string) : string :=
  nl ++ "Dashboard Update with Strategic Context" ++ nl
  ++ nl ++ updates ++ nl
  ++ nl ++ "Focus: " ++ currentFocus ++ nl
  ++ "Strategic Context: " ++ context ++ nl.

Definition email_text (type content recipient framework : string) : string :=
  nl ++ type ++ nl
  ++ nl ++ content ++ nl
  ++ nl ++ "Recipient context: " ++ recipient ++ nl
  ++ "Strategic framework: " ++ framework ++ nl
  ++ "    ".

(** ** Sample hosts and payloads *)

Definition created : reply :=
  {| status := 201; text := "{}"; json := Some (VObj []) |}.

Definition unprocessable : reply :=
  {| status := 422; text := "Validation Failed"; json := Some (VObj []) |}.

(** A tracker that creates every issue.  No sample payload reaches the
    conversion of a string to a number. *)
Definition accepting : host :=
  {| fetch := fun _ _ => Some created;
     now := "2024-05-01T12:00:00.000Z";
     string_exceeds := fun _ _ => false |}.

(** A tracker that creates the first issue and answers 422 from then on. *)
Definition rejecting_second : host :=
  {| fetch := fun log _ => match log with
                           | [] => Some created
                           | _ :: _ => Some unprocessable
                           end;
     now := "2024-05-01T12:00:00.000Z";
     string_exceeds := fun _ _ => false |}.

Definition sample_emails : list value :=
  [VObj [("subject", VStr "Launch plan"); ("recipient", VStr "board")];
   VObj [("type", VStr "follow-up")];
   VObj []].

Definition sample_updates : list (string * value) :=
  [("alpha", VObj [("progress", VNum 40); ("context", VStr "on track")]);
   ("beta", VObj [("progress", VNum 0)]);
   ("gamma", VObj [])].

(** The four payload groups, and [researchNeeds]. *)
Definition sample_fields : list (string * value) :=
  [("dashboardData", VObj [("projects", VObj [("alpha", VNum 40)]);
                           ("currentFocus", VStr "launch")]);
   ("strategicInsights", VStr "Focus on the launch");
   ("projectUpdates", VObj sample_updates);
   ("researchNeeds", VStr "Market sizing");
   ("emailRequests", VArr sample_emails)].

(** Insights of 150 characters. *)
Definition long_insights : string :=
  "The launch of alpha should come before the work on beta, because the "
  ++ "customers of alpha are the ones who asked for beta and will pay for both of them.".

(** A tracker that cannot be reached, and one that answers 200 with a body
    that is not JSON. *)
Definition unreachable : host :=
  {| fetch := fun _ _ => None;
     now := "2024-05-01T12:00:00.000Z";
     string_exceeds := fun _ _ => false |}.

Definition garbled : host :=
  {| fetch := fun _ _ => Some {| status := 200; text := "<html>"; json := None |};
     now := "2024-05-01T12:00:00.000Z";
     string_exceeds := fun _ _ => false |}.

(** ** Formatting *)

Lemma map_opt_map {A B : Type} (f : A -> option B) (g : A -> B) (l : list A) :
  (forall x, In x l -> f x = Some (g x)) -> map_opt f l = Some (map g l).
Proof.
  induction l as [|x rest IH]; intros Hf; simpl.
  - reflexivity.
  - rewrite (Hf x (or_introl eq_refl)), IH; [reflexivity|].
    intros y Hy. apply Hf. right. exact Hy.
Qed.

Lemma text_or_scalar (v : value) (fallback : string) :
  is_scalar v = true -> text_or v (fallback) = Some (present_or v fallback).
Proof.
  unfold text_or, or_else, present_or.
  destruct v; simpl; try discriminate; intros _;
    repeat match goal with |- context [if ?c then _ else _] => destruct c end;
    reflexivity.
Qed.

Lemma get_object (fields : list (string * value)) (k : string) :
  get (VObj fields) k = Some (field (VObj fields) k).
Proof. reflexivity. Qed.

Lemma is_record_object (keys : list string) (v : value) :
  is_record keys v = true -> exists fields, v = VObj fields.
Proof. destruct v; simpl; try discriminate. intros _. eexists. reflexivity. Qed.

Lemma is_record_field (keys : list string) (v : value) (k : string) :
  is_record keys v = true -> In k keys -> is_scalar (field v k) = true.
Proof.
  destruct v; simpl; try discriminate.
  intros H Hk. rewrite forallb_forall in H. apply (H k Hk).
Qed.

Lemma projectLine_update (project : string) (update : value) :
  update_shape update = true ->
  (let? progress := get update "progress" in
   let? context := get update "context" in
   projectLine project progress context) = Some (project_line (project, update)).
Proof.
  intros Hu.
  assert (Hp := is_record_field _ _ "progress" Hu (or_introl eq_refl)).
  assert (Hc := is_record_field _ _ "context" Hu (or_intror (or_introl eq_refl))).
  destruct (is_record_object _ _ Hu) as [fields ->].
  rewrite !get_object. unfold projectLine.
  rewrite (text_or_scalar _ _ Hp), (text_or_scalar _ _ Hc).
  reflexivity.
Qed.

Lemma formatProjectUpdates_mapping (updates : list (string * value)) :
  is_mapping update_shape (VObj updates) = true ->
  formatProjectUpdates (VObj updates) = Some (join nl (map project_line updates)).
Proof.
  intros H. simpl in H. rewrite forallb_forall in H.
  unfold formatProjectUpdates. simpl truthy. simpl entries. cbv iota beta.
  simpl negb. cbv iota.
  rewrite (map_opt_map _ project_line); [reflexivity|].
  intros [project update] Hin. apply projectLine_update. apply (H _ Hin).
Qed.

Lemma formatProjectUpdates_shape (projects : value) :
  projects_shape projects = true -> exists t, formatProjectUpdates projects = Some t.
Proof.
  unfold projects_shape. intros H. apply orb_true_iff in H. destruct H as [H|H].
  - apply andb_true_iff in H. destruct H as [_ H].
    unfold formatProjectUpdates. rewrite H. eexists. reflexivity.
  - destruct projects; simpl in H; try discriminate.
    eexists. apply formatProjectUpdates_mapping. exact H.
Qed.

Lemma formatDashboardUpdates_mapping (fields mapping : list (string * value)) :
  lookup "projects" fields = VObj mapping ->
  forallb (fun kv => is_scalar (snd kv)) mapping = true ->
  formatDashboardUpdates (VObj fields) = Some (join nl (map dashboard_line mapping)).
Proof.
  intros Hl H. rewrite forallb_forall in H.
  unfold formatDashboardUpdates. simpl truthy. simpl get. rewrite Hl.
  simpl truthy. simpl entries. simpl negb. cbv iota.
  rewrite (map_opt_map _ dashboard_line); [reflexivity|].
  intros [project v] Hin. specialize (H _ Hin). simpl in H.
  unfold dashboard_line. simpl fst. simpl snd.
  destruct v; try discriminate; reflexivity.
Qed.

Lemma formatDashboardUpdates_shape (dashboardData : value) :
  dashboard_shape dashboardData = true ->
  exists t, formatDashboardUpdates dashboardData = Some t.
Proof.
  unfold dashboard_shape. intros H. apply andb_true_iff in H. destruct H as [Hr H].
  destruct (is_record_object _ _ Hr) as [fields ->].
  apply orb_true_iff in H. destruct H as [H|H].
  - apply andb_true_iff in H. destruct H as [_ H]. unfold field in H. simpl get in H.
    unfold formatDashboardUpdates. simpl truthy. simpl get. cbv iota. simpl negb at 1.
    cbv iota. rewrite H. eexists. reflexivity.
  - unfold field in H. simpl get in H. cbv iota in H.
    destruct (lookup "projects" fields) eqn:Hl; simpl in H; try discriminate.
    eexists. eapply formatDashboardUpdates_mapping; eassumption.
Qed.

(** ** Runs against the tracker *)

Section Runs.

Variable h : host.

Lemma post_all_app (first second : list issue) (log : list exchange) :
  post_all h (first ++ second)%list log = (_ <- post_all h first ;; post_all h second) log.
Proof.
  unfold post_all. revert log.
  induction first as [|i rest IH]; intros log; simpl.
  - reflexivity.
  - unfold bind in *. destruct (post h i log) as [[[]|e] log']; [apply IH|reflexivity].
Qed.

(** A call appends its exchange to the log; it completes normally when the
    exchange is accepted and throws otherwise. *)
Lemma post_run (i : issue) (log : list exchange) :
  post h i log
  = (if accepted (exchange_of h log i) then Normal tt else Throw (failure (exchange_of h log i)),
     (log ++ [exchange_of h log i])%list).
Proof.
  destruct i as [t b].
  unfold post, bind, createGitHubIssue, exchange_of, accepted, failure, ret. simpl.
  destruct (fetch h log _) as [r|]; [|reflexivity].
  destruct (ok r); simpl; [|reflexivity]. destruct (json r); reflexivity.
Qed.

(** The result of a call is never used: a call is a [post h]. *)
Lemma createGitHubIssue_post {A : Type} (t b : string) (k : M A) (log : list exchange) :
  (_ <- createGitHubIssue h t b ;; k) log = (_ <- post h {| title := t; body := b |} ;; k) log.
Proof.
  unfold post, bind, ret. simpl.
  destruct (createGitHubIssue h t b log) as [[created|e] log']; reflexivity.
Qed.

Lemma bind_lift_some {A B : Type} (a : A) (k : A -> M B) (log : list exchange) :
  (x <- lift (Some a) ;; k x) log = k a log.
Proof. reflexivity. Qed.

Lemma bind_lift_none {A B : Type} (k : A -> M B) (log : list exchange) :
  (x <- lift None ;; k x) log = (Throw TypeError, log).
Proof. reflexivity. Qed.

Lemma bind_post {A : Type} (i : issue) (k : unit -> M A) (log : list exchange) :
  (x <- post h i ;; k x) log
  = if accepted (exchange_of h log i)
    then k tt (log ++ [exchange_of h log i])%list
    else (Throw (failure (exchange_of h log i)), (log ++ [exchange_of h log i])%list).
Proof.
  unfold bind. rewrite post_run. destruct (accepted (exchange_of h log i)); reflexivity.
Qed.

Lemma bind_ext {A B : Type} (m m' : M A) (k k' : A -> M B) (log : list exchange) :
  m log = m' log -> (forall a log', k a log' = k' a log') ->
  (x <- m ;; k x) log = (x <- m' ;; k' x) log.
Proof.
  intros Hm Hk. unfold bind. rewrite Hm.
  destruct (m' log) as [[a|e] log']; [apply Hk|reflexivity].
Qed.

(** Straight-line code is run one step at a time. *)
Ltac run :=
  repeat (rewrite ?bind_lift_some, ?createGitHubIssue_post, ?bind_post; cbv beta).

(** When every exchange of the run is accepted, a plan is sent whole. *)
Lemma post_all_accepted (plan : list issue) (log : list exchange) :
  forallb accepted (snd (post_all h plan log)) = true ->
  fst (post_all h plan log) = Normal tt
  /\ map sent (snd (post_all h plan log)) = (map sent log ++ plan)%list.
Proof.
  unfold post_all. revert log.
  induction plan as [|i rest IH]; intros log; simpl.
  - intros _. split; [reflexivity|]. rewrite app_nil_r. reflexivity.
  - unfold bind. rewrite post_run.
    destruct (accepted (exchange_of h log i)) eqn:Hx.
    + intros H. destruct (IH _ H) as [Hr Hs]. split; [exact Hr|].
      rewrite Hs, map_app, <- app_assoc. reflexivity.
    + simpl. rewrite forallb_app. simpl. rewrite Hx, andb_false_r. discriminate.
Qed.

(** A plan is sent whole as soon as the calls before its last one are accepted. *)
Lemma post_all_made (plan : list issue) (log : list exchange) :
  exists made,
    snd (post_all h plan log) = (log ++ made)%list
    /\ (forallb accepted (firstn (length plan - 1) made) = true ->
        map sent made = plan).
Proof.
  unfold post_all. revert log.
  induction plan as [|i rest IH]; intros log; simpl for_each.
  - exists []. simpl. rewrite app_nil_r. split; reflexivity.
  - rewrite bind_post. destruct (IH (log ++ [exchange_of h log i])%list) as (made & Hlog & Hall).
    destruct rest as [|j rest'].
    + exists [exchange_of h log i]. split; [destruct (accepted _); reflexivity|].
      intros _. reflexivity.
    + destruct (accepted (exchange_of h log i)) eqn:Hx.
      * exists (exchange_of h log i :: made). rewrite Hlog, <- app_assoc.
        split; [reflexivity|]. replace (length (i :: j :: rest') - 1)%nat
          with (S (length (j :: rest') - 1)) by (simpl; lia).
        simpl firstn. simpl forallb. rewrite Hx. simpl andb. intros Hacc.
        simpl map. rewrite (Hall Hacc). reflexivity.
      * exists [exchange_of h log i]. split; [reflexivity|].
        simpl. rewrite Hx. discriminate.
Qed.

Lemma post_all_accepts_all (plan : list issue) (log : list exchange) :
  accepts_all h ->
  fst (post_all h plan log) = Normal tt
  /\ map sent (snd (post_all h plan log)) = (map sent log ++ plan)%list.
Proof.
  intros Hall. unfold post_all. revert log.
  induction plan as [|i rest IH]; intros log; simpl.
  - split; [reflexivity|]. rewrite app_nil_r. reflexivity.
  - unfold bind. rewrite post_run, Hall.
    destruct (IH (log ++ [exchange_of h log i])%list) as [Hr Hs]. split; [exact Hr|].
    rewrite Hs, map_app, <- app_assoc. reflexivity.
Qed.

(** *** The processors on payloads of the expected shapes *)

Lemma analysisContent_scalar (insights : value) (projectText : string) (research : value) :
  is_scalar insights = true -> is_scalar research = true ->
  exists c, analysisContent insights projectText research = Some c.
Proof.
  intros Hi Hr. unfold analysisContent.
  rewrite (text_or_scalar _ _ Hi), (text_or_scalar _ _ Hr). eexists. reflexivity.
Qed.

Lemma significant_scalar (insights : value) :
  is_scalar insights = true ->
  significant h insights
  = Some match insights with
         | VStr s => 100 <? Z.of_nat (String.length s)
         | _ => false
         end.
Proof.
  unfold significant. destruct insights as [| |b|n|s|l|f]; simpl; try discriminate; intros _;
    try reflexivity.
  - destruct b; reflexivity.
  - destruct (n =? 0); reflexivity.
  - destruct s as [|c s]; simpl; [reflexivity|]. rewrite Z.gtb_ltb. reflexivity.
Qed.

Lemma processStrategicAnalysis_plan (insights projects research : value)
  (log : list exchange) :
  is_scalar insights = true -> projects_shape projects = true ->
  is_scalar research = true ->
  processStrategicAnalysis h insights projects research log
  = post_all h (analysis_plan insights projects research) log.
Proof.
  intros Hi Hp Hr.
  destruct (formatProjectUpdates_shape _ Hp) as [t Ht].
  destruct (analysisContent_scalar insights t research Hi Hr) as [c Hc].
  unfold processStrategicAnalysis, analysis_plan, analysisIssue, post_all.
  rewrite Ht, Hc, (significant_scalar _ Hi). simpl the_text. simpl for_each. run.
  destruct (accepted _); [|reflexivity].
  destruct insights as [| |b|n|s|l|f]; try reflexivity.
  destruct (100 <? Z.of_nat (String.length s)); [|reflexivity].
  simpl substring_to. simpl for_each. run. reflexivity.
Qed.

Lemma updateDashboardWithContext_plan (dashboardData : value) (log : list exchange) :
  dashboard_shape dashboardData = true ->
  updateDashboardWithContext h dashboardData log = post_all h [dashboardIssue dashboardData] log.
Proof.
  intros Hd. destruct (formatDashboardUpdates_shape _ Hd) as [t Ht].
  unfold dashboard_shape in Hd. apply andb_true_iff in Hd. destruct Hd as [Hr _].
  assert (Hf := is_record_field _ _ "currentFocus" Hr (or_introl eq_refl)).
  assert (Hc := is_record_field _ _ "context" Hr (or_intror (or_introl eq_refl))).
  destruct (is_record_object _ _ Hr) as [fields ->].
  unfold updateDashboardWithContext, dashboardIssue, post_all.
  rewrite Ht, !get_object. unfold dashboardContent.
  rewrite (text_or_scalar _ _ Hf), (text_or_scalar _ _ Hc).
  simpl the_text. simpl for_each. run. reflexivity.
Qed.

Lemma emailIssue_shape (email : value) :
  email_shape email = true -> emailIssue email = Some (email_issue email).
Proof.
  intros He.
  assert (Ht := is_record_field _ _ "type" He (or_introl eq_refl)).
  assert (Hc := is_record_field _ _ "content" He (or_intror (or_introl eq_refl))).
  assert (Hr := is_record_field _ _ "recipient" He
                  (or_intror (or_intror (or_introl eq_refl)))).
  assert (Hf := is_record_field _ _ "framework" He
                  (or_intror (or_intror (or_intror (or_introl eq_refl))))).
  assert (Hs := is_record_field _ _ "subject" He
                  (or_intror (or_intror (or_intror (or_intror (or_introl eq_refl)))))).
  destruct (is_record_object _ _ He) as [fields ->].
  unfold emailIssue, email_issue, emailContent, emailTitle. rewrite !get_object.
  rewrite (text_or_scalar _ _ Ht), (text_or_scalar _ _ Hc), (text_or_scalar _ _ Hr),
    (text_or_scalar _ _ Hf), (text_or_scalar _ _ Hs).
  reflexivity.
Qed.

Lemma triggerStrategicEmail_plan (emails : list value) (log : list exchange) :
  forallb email_shape emails = true ->
  triggerStrategicEmail h (VArr emails) log = post_all h (map email_issue emails) log.
Proof.
  unfold triggerStrategicEmail, post_all. simpl iterate. rewrite bind_lift_some.
  revert log. induction emails as [|email rest IH]; intros log He; simpl in *.
  - reflexivity.
  - apply andb_true_iff in He. destruct He as [He Hrest].
    rewrite (emailIssue_shape _ He).
    unfold bind at 1. rewrite bind_lift_some, createGitHubIssue_post, bind_post.
    unfold ret at 1. rewrite bind_post.
    replace {| title := title (email_issue email); body := body (email_issue email) |}
      with (email_issue email) by reflexivity.
    destruct (accepted _); [apply IH; exact Hrest|reflexivity].
Qed.

Lemma nonempty_shape (emailRequests : value) :
  (is_scalar emailRequests && negb (truthy emailRequests)) || emails_shape emailRequests = true ->
  nonempty h emailRequests
  = Some match emailRequests with
         | VArr (_ :: _) => true
         | _ => false
         end.
Proof.
  intros H. apply orb_true_iff in H. destruct H as [H|H].
  - apply andb_true_iff in H. destruct H as [Hs H]. apply negb_true_iff in H.
    unfold nonempty. rewrite H. destruct emailRequests; try discriminate; reflexivity.
  - destruct emailRequests as [| |b|n|s|l|f]; try discriminate.
    destruct l; reflexivity.
Qed.

Lemma processComplexStrategicUpdate_plan
  (projectUpdates strategicInsights dashboardData emailRequests : value)
  (log : list exchange) :
  complex_shape projectUpdates strategicInsights dashboardData emailRequests = true ->
  processComplexStrategicUpdate h projectUpdates strategicInsights dashboardData
    emailRequests log
  = post_all h (complex_plan projectUpdates strategicInsights dashboardData emailRequests) log.
Proof.
  unfold complex_shape. intros H.
  apply andb_true_iff in H. destruct H as [H He].
  apply andb_true_iff in H. destruct H as [H Hp].
  apply andb_true_iff in H. destruct H as [Hd Hi].
  unfold processComplexStrategicUpdate, complex_plan.
  rewrite (nonempty_shape _ He), post_all_app.
  apply bind_ext.
  { destruct (truthy dashboardData) eqn:Ht; [|reflexivity].
    apply updateDashboardWithContext_plan.
    apply orb_true_iff in Hd. destruct Hd as [Hd|Hd]; [|exact Hd].
    apply andb_true_iff in Hd. destruct Hd as [_ Hd]. apply negb_true_iff in Hd.
    congruence. }
  intros _ log1. rewrite post_all_app.
  apply bind_ext.
  { destruct (truthy strategicInsights); [|reflexivity].
    apply processStrategicAnalysis_plan; [exact Hi|exact Hp|reflexivity]. }
  intros _ log2. rewrite bind_lift_some.
  destruct emailRequests as [| |b|n|s|l|f]; try reflexivity.
  destruct l as [|email rest]; [reflexivity|].
  apply triggerStrategicEmail_plan.
  apply orb_true_iff in He. destruct He as [He|He]; [discriminate|exact He].
Qed.

(** *** The handler on payloads of the expected shapes *)

Lemma action_object (b : value) (literal : string) :
  is_string (field b "action") literal = true -> exists fields, b = VObj fields.
Proof.
  destruct b as [| |c|n|s|l|fields]; simpl; try discriminate.
  intros _. eexists. reflexivity.
Qed.

Lemma payload_shape_object (b : value) :
  payload_shape b = true -> exists fields, b = VObj fields.
Proof.
  unfold payload_shape.
  destruct (is_string (field b "action") "strategic-analysis") eqn:E1;
    [intros _; eapply action_object; eassumption|].
  destruct (is_string (field b "action") "dashboard-update") eqn:E2;
    [intros _; eapply action_object; eassumption|].
  destruct (is_string (field b "action") "send-email") eqn:E3;
    [intros _; eapply action_object; eassumption|].
  destruct (is_string (field b "action") "complex-update") eqn:E4;
    [intros _; eapply action_object; eassumption|discriminate].
Qed.

Lemma dispatch_plan (b : value) (log : list exchange) :
  payload_shape b = true ->
  dispatch h b log = (_ <- post_all h (request_plan b) ;; ret (success (now h))) log.
Proof.
  intros Hs. destruct (payload_shape_object _ Hs) as [fields ->].
  unfold payload_shape, request_plan in *. unfold dispatch. rewrite !get_object. run.
  destruct (is_string (field (VObj fields) "action") "strategic-analysis").
  { apply andb_true_iff in Hs. destruct Hs as [Hs Hr].
    apply andb_true_iff in Hs. destruct Hs as [Hi Hp].
    apply bind_ext; [|reflexivity]. apply processStrategicAnalysis_plan; assumption. }
  destruct (is_string (field (VObj fields) "action") "dashboard-update").
  { apply bind_ext; [|reflexivity]. apply updateDashboardWithContext_plan; assumption. }
  destruct (is_string (field (VObj fields) "action") "send-email").
  { apply bind_ext; [|reflexivity].
    destruct (field (VObj fields) "emailRequests"); try discriminate.
    apply triggerStrategicEmail_plan. exact Hs. }
  destruct (is_string (field (VObj fields) "action") "complex-update"); [|discriminate].
  apply bind_ext; [|reflexivity]. apply processComplexStrategicUpdate_plan. exact Hs.
Qed.

Lemma handler_plan (b : value) :
  payload_shape b = true ->
  handler h (POST b)
  = match post_all h (request_plan b) [] with
    | (Normal _, log) => (success (now h), log)
    | (Throw error, log) => (respond 500 (FailureBody "Processing failed" error), log)
    end.
Proof.
  intros Hs. unfold handler. simpl. rewrite (dispatch_plan _ _ Hs).
  unfold bind, ret. destruct (post_all h (request_plan b) []) as [[[]|e] log]; reflexivity.
Qed.

Lemma handler_plan_log (b : value) :
  payload_shape b = true ->
  snd (handler h (POST b)) = snd (post_all h (request_plan b) []).
Proof.
  intros Hs. rewrite (handler_plan _ Hs).
  destruct (post_all h (request_plan b) []) as [[[]|e] log]; reflexivity.
Qed.

Lemma handler_accepted (b : value) :
  payload_shape b = true ->
  forallb accepted (snd (handler h (POST b))) = true ->
  fst (handler h (POST b)) = success (now h)
  /\ calls (handler h (POST b)) = request_plan b.
Proof.
  intros Hs. unfold calls. rewrite (handler_plan _ Hs).
  destruct (post_all h (request_plan b) []) as [[[]|e] log] eqn:Hrun; simpl; intros Hacc.
  - assert (H := post_all_accepted (request_plan b) []).
    rewrite Hrun in H. destruct (H Hacc) as [_ Hc]. split; [reflexivity|exact Hc].
  - assert (H := post_all_accepted (request_plan b) []).
    rewrite Hrun in H. destruct (H Hacc) as [Hr _]. discriminate.
Qed.

Lemma handler_accepts_all (b : value) :
  accepts_all h -> payload_shape b = true ->
  fst (handler h (POST b)) = success (now h)
  /\ calls (handler h (POST b)) = request_plan b.
Proof.
  intros Hall Hs. unfold calls. rewrite (handler_plan _ Hs).
  destruct (post_all_accepts_all (request_plan b) [] Hall) as [Hr Hc].
  destruct (post_all h (request_plan b) []) as [[[]|e] log]; simpl in *.
  - split; [reflexivity|exact Hc].
  - discriminate.
Qed.

(** A dashboard-update request whose [dashboardData] is an object sends one
    issue, whatever the tracker answers. *)
Lemma dashboard_update_calls (b : value) :
  field b "action" = VStr "dashboard-update" ->
  dashboard_shape (field b "dashboardData") = true ->
  calls (handler h (POST b)) = [dashboardIssue (field b "dashboardData")].
Proof.
  intros Ha Hd.
  assert (Hshape : payload_shape b = true).
  { unfold payload_shape. rewrite Ha. exact Hd. }
  unfold calls. rewrite (handler_plan_log _ Hshape).
  unfold request_plan. rewrite Ha. simpl is_string. cbv iota.
  unfold post_all. simpl for_each. rewrite bind_post.
  destruct (accepted _); reflexivity.
Qed.

(** Its dashboard section is the fallback line when there is no [projects]
    field. *)
Lemma formatDashboardUpdates_fallback (fields : list (string * value)) :
  truthy (lookup "projects" fields) = false ->
  formatDashboardUpdates (VObj fields)
  = Some "General dashboard update from strategic conversation".
Proof.
  intros H. unfold formatDashboardUpdates. simpl truthy. simpl get. cbv iota.
  simpl negb at 1. cbv iota. rewrite H. reflexivity.
Qed.

(** *** Every run is disciplined *)

Lemma disciplined_ret {A : Type} (a : A) : disciplined (ret a).
Proof.
  intros log. exists []. simpl. rewrite app_nil_r.
  split; [reflexivity|]. split; [constructor|]. left. reflexivity.
Qed.

Lemma disciplined_throw {A : Type} (e : exn) : disciplined (@throw A e).
Proof.
  intros log. exists []. simpl. rewrite app_nil_r.
  split; [reflexivity|]. split; [constructor|]. left. reflexivity.
Qed.

Lemma disciplined_bind {A B : Type} (m : M A) (k : A -> M B) :
  disciplined m -> (forall a, disciplined (k a)) -> disciplined (x <- m ;; k x).
Proof.
  intros Hm Hk log. destruct (Hm log) as (made & Hlog & Hsent & Hend).
  unfold bind. destruct (m log) as [[a|e] log1]; simpl in *; subst log1.
  - destruct (Hk a (log ++ made)%list) as (made' & Hlog' & Hsent' & Hend').
    exists (made ++ made')%list. rewrite Hlog', app_assoc.
    split; [reflexivity|]. split; [apply Forall_app; split; assumption|].
    destruct Hend as [Hacc|(before & x & _ & _ & _ & Habs)]; [|discriminate].
    destruct Hend' as [Hacc'|(before & x & -> & Hbefore & Hx & Hr)].
    + left. rewrite forallb_app, Hacc, Hacc'. reflexivity.
    + right. exists (made ++ before)%list, x. rewrite app_assoc, forallb_app, Hacc, Hbefore.
      repeat split; assumption.
  - exists made. split; [reflexivity|]. split; [assumption|].
    destruct Hend as [Hacc|(before & x & Hmade & Hbefore & Hx & Hr)].
    + left. exact Hacc.
    + right. exists before, x. injection Hr as ->. repeat split; assumption.
Qed.

Lemma disciplined_lift_bind {A B : Type} (o : option A) (k : A -> M B) :
  (forall a, o = Some a -> disciplined (k a)) -> disciplined (x <- lift o ;; k x).
Proof.
  intros Hk. destruct o as [a|].
  - intros log. rewrite bind_lift_some. apply Hk. reflexivity.
  - intros log. rewrite bind_lift_none. apply (disciplined_throw TypeError).
Qed.

Lemma disciplined_post (i : issue) : nonblank i -> disciplined (post h i).
Proof.
  intros Hi log. exists [exchange_of h log i]. rewrite post_run. simpl.
  split; [reflexivity|]. split; [constructor; [exact Hi|constructor]|].
  destruct (accepted (exchange_of h log i)) eqn:Hx.
  - left. simpl. rewrite Hx. reflexivity.
  - right. exists [], (exchange_of h log i). repeat split; assumption.
Qed.

Lemma disciplined_call {A : Type} (t b : string) (k : M A) :
  t <> "" -> b <> "" -> disciplined k ->
  disciplined (_ <- createGitHubIssue h t b ;; k).
Proof.
  intros Ht Hb Hk.
  assert (H : disciplined (_ <- post h {| title := t; body := b |} ;; k)).
  { apply disciplined_bind; [apply disciplined_post; split; assumption|intros _; exact Hk]. }
  intros log. rewrite createGitHubIssue_post. apply H.
Qed.

Lemma disciplined_for_each {A : Type} (l : list A) (f : A -> M unit) :
  (forall x, disciplined (f x)) -> disciplined (for_each l f).
Proof.
  intros Hf. induction l as [|x rest IH]; simpl.
  - apply disciplined_ret.
  - apply disciplined_bind; [apply Hf|intros _; exact IH].
Qed.

Lemma disciplined_if {A : Type} (c : bool) (m m' : M A) :
  disciplined m -> disciplined m' -> disciplined (if c then m else m').
Proof. destruct c; intros; assumption. Qed.

(** The templates never produce an empty text. *)
Lemma analysisContent_nonblank (insights : value) (t : string) (research : value) (c : string) :
  analysisContent insights t research = Some c -> c <> "".
Proof.
  unfold analysisContent.
  destruct (text_or insights _); [|discriminate].
  destruct (text_or research _); [|discriminate].
  intros H. injection H as <-. discriminate.
Qed.

Lemma dashboardContent_nonblank (t : string) (currentFocus context : value) (c : string) :
  dashboardContent t currentFocus context = Some c -> c <> "".
Proof.
  unfold dashboardContent.
  destruct (text_or currentFocus _); [|discriminate].
  destruct (text_or context _); [|discriminate].
  intros H. injection H as <-. discriminate.
Qed.

Lemma emailIssue_nonblank (email : value) (i : issue) :
  emailIssue email = Some i -> nonblank i.
Proof.
  unfold emailIssue, emailContent, emailTitle.
  destruct (get email "type") as [type|]; [|discriminate].
  destruct (get email "content") as [content|]; [|discriminate].
  destruct (get email "recipient") as [recipient|]; [|discriminate].
  destruct (get email "framework") as [framework|]; [|discriminate].
  destruct (text_or type _); [|discriminate].
  destruct (text_or content _); [|discriminate].
  destruct (text_or recipient _); [|discriminate].
  destruct (text_or framework _); [|discriminate].
  destruct (get email "subject") as [subject|]; [|discriminate].
  destruct (text_or subject _); [|discriminate].
  intros H. injection H as <-. split; discriminate.
Qed.

Lemma disciplined_processStrategicAnalysis (insights projects research : value) :
  disciplined (processStrategicAnalysis h insights projects research).
Proof.
  unfold processStrategicAnalysis.
  apply disciplined_lift_bind. intros c Hc.
  apply disciplined_call; [discriminate| |].
  { destruct (formatProjectUpdates projects); [|discriminate].
    eapply analysisContent_nonblank. eassumption. }
  apply disciplined_lift_bind. intros long _.
  apply disciplined_if; [|apply disciplined_ret].
  apply disciplined_lift_bind. intros excerpt _.
  apply disciplined_call; [discriminate|discriminate|apply disciplined_ret].
Qed.

Lemma disciplined_updateDashboardWithContext (dashboardData : value) :
  disciplined (updateDashboardWithContext h dashboardData).
Proof.
  unfold updateDashboardWithContext.
  apply disciplined_lift_bind. intros c Hc.
  apply disciplined_call; [discriminate| |apply disciplined_ret].
  destruct (formatDashboardUpdates dashboardData); [|discriminate].
  destruct (get dashboardData "currentFocus"); [|discriminate].
  destruct (get dashboardData "context"); [|discriminate].
  eapply dashboardContent_nonblank. eassumption.
Qed.

Lemma disciplined_triggerStrategicEmail (emailRequests : value) :
  disciplined (triggerStrategicEmail h emailRequests).
Proof.
  unfold triggerStrategicEmail.
  apply disciplined_lift_bind. intros emails _.
  apply disciplined_for_each. intros email.
  apply disciplined_lift_bind. intros i Hi.
  destruct (emailIssue_nonblank _ _ Hi) as [Ht Hb].
  apply disciplined_call; [exact Ht|exact Hb|apply disciplined_ret].
Qed.

Lemma disciplined_processComplexStrategicUpdate
  (projectUpdates strategicInsights dashboardData emailRequests : value) :
  disciplined (processComplexStrategicUpdate h projectUpdates strategicInsights
                 dashboardData emailRequests).
Proof.
  unfold processComplexStrategicUpdate.
  apply disciplined_bind;
    [apply disciplined_if;
     [apply disciplined_updateDashboardWithContext|apply disciplined_ret]|intros _].
  apply disciplined_bind;
    [apply disciplined_if;
     [apply disciplined_processStrategicAnalysis|apply disciplined_ret]|intros _].
  apply disciplined_lift_bind. intros some _.
  apply disciplined_if; [apply disciplined_triggerStrategicEmail|apply disciplined_ret].
Qed.

Lemma disciplined_dispatch (b : value) : disciplined (dispatch h b).
Proof.
  unfold dispatch.
  do 7 (apply disciplined_lift_bind; intros ? _).
  repeat apply disciplined_if; try apply disciplined_ret;
    (apply disciplined_bind; [|intros _; apply disciplined_ret]).
  - apply disciplined_processStrategicAnalysis.
  - apply disciplined_updateDashboardWithContext.
  - apply disciplined_triggerStrategicEmail.
  - apply disciplined_processComplexStrategicUpdate.
Qed.

(** The handler: the log it returns and how the run ended. *)
Lemma handler_disciplined (req : request) :
  Forall (fun x => nonblank (sent x)) (snd (handler h req))
  /\ (forallb accepted (snd (handler h req)) = true
      \/ exists before x,
           snd (handler h req) = (before ++ [x])%list
           /\ forallb accepted before = true /\ accepted x = false
           /\ fst (handler h req)
              = respond 500 (FailureBody "Processing failed" (failure x))).
Proof.
  unfold handler. destruct (negb (method req =? "POST")%string).
  - simpl. split; [constructor|left; reflexivity].
  - destruct (disciplined_dispatch (req_body req) []) as (made & Hlog & Hsent & Hend).
    simpl in Hlog.
    destruct (dispatch h (req_body req) []) as [[res|e] log]; simpl in *; subst log.
    + split; [exact Hsent|].
      destruct Hend as [Hacc|(before & x & _ & _ & _ & Habs)]; [left; exact Hacc|discriminate].
    + split; [exact Hsent|].
      destruct Hend as [Hacc|(before & x & Hmade & Hbefore & Hx & Hr)]; [left; exact Hacc|].
      right. exists before, x. injection Hr as ->. repeat split; assumption.
Qed.

Lemma last_rejected (before after made : list exchange) (x y : exchange) :
  (before ++ x :: after)%list = (made ++ [y])%list ->
  (after = [] /\ x = y) \/ In x made.
Proof.
  intros H. destruct after as [|a after'].
  - left. apply app_inj_tail in H. destruct H as [_ H]. split; [reflexivity|exact H].
  - right. apply (f_equal (@removelast exchange)) in H.
    rewrite removelast_last in H.
    rewrite removelast_app in H by discriminate.
    subst made. apply in_or_app. right. left. reflexivity.
Qed.

(** *** The templates on leaf fields *)

Lemma projectLine_text (project : string) (progress context : value) :
  is_scalar progress = true -> is_scalar context = true ->
  projectLine project progress context
  = Some (project_text project (present_or progress "No progress specified")
            (present_or context "Strategic context from conversation")).
Proof.
  intros Hp Hc. unfold projectLine.
  rewrite (text_or_scalar _ _ Hp), (text_or_scalar _ _ Hc). reflexivity.
Qed.

Lemma analysisContent_text (insights : value) (projectText : string) (research : value) :
  is_scalar insights = true -> is_scalar research = true ->
  analysisContent insights projectText research
  = Some (analysis_text
            (present_or insights "Strategic insights from portfolio discussion")
            projectText
            (present_or research
               "Research requirements identified during strategic conversation")).
Proof.
  intros Hi Hr. unfold analysisContent.
  rewrite (text_or_scalar _ _ Hi), (text_or_scalar _ _ Hr). reflexivity.
Qed.

Lemma dashboardContent_text (updates : string) (currentFocus context : value) :
  is_scalar currentFocus = true -> is_scalar context = true ->
  dashboardContent updates currentFocus context
  = Some (dashboard_text updates
            (present_or currentFocus "Strategic portfolio execution")
            (present_or context "Updates from strategic conversation")).
Proof.
  intros Hf Hc. unfold dashboardContent.
  rewrite (text_or_scalar _ _ Hf), (text_or_scalar _ _ Hc). reflexivity.
Qed.

Lemma emailContent_text (type content recipient framework : value) :
  is_scalar type = true -> is_scalar content = true ->
  is_scalar recipient = true -> is_scalar framework = true ->
  emailContent type content recipient framework
  = Some (email_text
            (present_or type "strategic communication")
            (present_or content "Strategic communication from portfolio conversation")
            (present_or recipient "strategic stakeholder")
            (present_or framework "portfolio-based strategic approach")).
Proof.
  intros Ht Hc Hr Hf. unfold emailContent.
  rewrite (text_or_scalar _ _ Ht), (text_or_scalar _ _ Hc), (text_or_scalar _ _ Hr),
    (text_or_scalar _ _ Hf).
  reflexivity.
Qed.

Lemma emailTitle_text (subject : value) :
  is_scalar subject = true ->
  emailTitle subject = Some ("[EMAIL] " ++ present_or subject "Strategic Communication").
Proof. intros Hs. unfold emailTitle. rewrite (text_or_scalar _ _ Hs). reflexivity. Qed.

(** A request of the expected shapes whose plan is one issue sends that issue,
    whatever the tracker answers. *)
Lemma single_call (b : value) (i : issue) :
  payload_shape b = true -> request_plan b = [i] ->
  calls (handler h (POST b)) = [i].
Proof.
  intros Hs Hp. unfold calls. rewrite (handler_plan_log _ Hs), Hp.
  unfold post_all. simpl for_each. rewrite bind_post.
  destruct (accepted _); reflexivity.
Qed.

(** *** Payloads that differ in one field *)

Lemma lookup_without_same (k : string) (fields : list (string * value)) :
  lookup k (without k fields) = VUndefined.
Proof.
  unfold lookup, without. induction fields as [|[k0 v0] rest IH]; simpl.
  - reflexivity.
  - destruct (k0 =? k)%string eqn:E; simpl; [exact IH|]. rewrite E. exact IH.
Qed.

Lemma lookup_without_other (k k' : string) (fields : list (string * value)) :
  (k =? k')%string = false -> lookup k' (without k fields) = lookup k' fields.
Proof.
  intros Hk. unfold lookup, without. induction fields as [|[k0 v0] rest IH]; simpl.
  - reflexivity.
  - destruct (k0 =? k)%string eqn:E; simpl.
    + apply String.eqb_eq in E. subst k0. rewrite Hk. exact IH.
    + destruct (k0 =? k')%string; [reflexivity|exact IH].
Qed.

Lemma field_set_field_same (k : string) (v : value) (fields : list (string * value)) :
  field (set_field k v fields) k = v.
Proof.
  unfold field, set_field. cbn [get]. unfold lookup. cbn [find fst snd].
  rewrite String.eqb_refl. reflexivity.
Qed.

Lemma field_set_field_other (k k' : string) (v : value) (fields : list (string * value)) :
  (k =? k')%string = false -> field (set_field k v fields) k' = lookup k' fields.
Proof.
  intros Hk. unfold field, set_field. cbn [get]. unfold lookup at 1. cbn [find fst snd].
  rewrite Hk. apply (lookup_without_other _ _ _ Hk).
Qed.

(** ** The claims *)

(** C1, as amended.  For a complex-update request with dashboard data,
    insights and email requests of the shapes of the data model, and a tracker
    that accepts every call, the issues sent are, in order, those of
    dashboard-update on the same payload, those of strategic-analysis on the
    same payload with [researchNeeds] left out, and those of send-email on the
    same payload. *)
Theorem complex_update_concatenates (fields : list (string * value)) :
  accepts_all h ->
  dashboard_shape (lookup "dashboardData" fields) = true ->
  is_scalar (lookup "strategicInsights" fields) = true ->
  truthy (lookup "strategicInsights" fields) = true ->
  projects_shape (lookup "projectUpdates" fields) = true ->
  emails_shape (lookup "emailRequests" fields) = true ->
  calls (handler h (POST (set_field "action" (VStr "complex-update") fields)))
  = (calls (handler h (POST (set_field "action" (VStr "dashboard-update") fields)))
     ++ calls (handler h (POST (set_field "action" (VStr "strategic-analysis")
                                  (without "researchNeeds" fields))))
     ++ calls (handler h (POST (set_field "action" (VStr "send-email") fields))))%list.
Proof.
  intros Hall Hd Hi Ht Hp He.
  assert (Hobj : truthy (lookup "dashboardData" fields) = true).
  { unfold dashboard_shape in Hd. apply andb_true_iff in Hd. destruct Hd as [Hr _].
    destruct (is_record_object _ _ Hr) as [f ->]. reflexivity. }
  assert (Hc : payload_shape (set_field "action" (VStr "complex-update") fields) = true).
  { unfold payload_shape. rewrite field_set_field_same.
    rewrite !field_set_field_other by reflexivity. simpl is_string. cbv iota.
    unfold complex_shape. rewrite Hd, Hi, Hp, He, !orb_true_r. reflexivity. }
  assert (Hdu : payload_shape (set_field "action" (VStr "dashboard-update") fields) = true).
  { unfold payload_shape. rewrite field_set_field_same.
    rewrite !field_set_field_other by reflexivity. exact Hd. }
  assert (Hsa : payload_shape (set_field "action" (VStr "strategic-analysis")
                                 (without "researchNeeds" fields)) = true).
  { unfold payload_shape. rewrite field_set_field_same.
    rewrite !field_set_field_other by reflexivity. simpl is_string. cbv iota.
    rewrite lookup_without_same, !lookup_without_other by reflexivity.
    rewrite Hi, Hp. reflexivity. }
  assert (Hse : payload_shape (set_field "action" (VStr "send-email") fields) = true).
  { unfold payload_shape. rewrite field_set_field_same.
    rewrite !field_set_field_other by reflexivity. exact He. }
  destruct (handler_accepts_all _ Hall Hc) as [_ ->].
  destruct (handler_accepts_all _ Hall Hdu) as [_ ->].
  destruct (handler_accepts_all _ Hall Hsa) as [_ ->].
  destruct (handler_accepts_all _ Hall Hse) as [_ ->].
  unfold request_plan. rewrite !field_set_field_same.
  rewrite !field_set_field_other by reflexivity. simpl is_string. cbv iota.
  rewrite lookup_without_same, !lookup_without_other by reflexivity.
  unfold complex_plan. rewrite Hobj, Ht. reflexivity.
Qed.

(** C2, as amended.  For every POST request whose action is one of the four
    recognized values and whose payload has the shape that action reads, if
    every outbound call succeeds the handler answers 200 with the success
    envelope, stamped with the current time. *)
Theorem wellformed_request_succeeds (b : value) :
  payload_shape b = true ->
  forallb accepted (snd (handler h (POST b))) = true ->
  fst (handler h (POST b))
  = {| status_code := 200;
       json_of := SuccessBody true "Strategic update processed successfully" (now h) |}.
Proof.
  intros Hs Hacc. destruct (handler_accepted _ Hs Hacc) as [Hr _]. exact Hr.
Qed.

(** C3, at the input where the code departs from it.  A dashboard-update
    request without [dashboardData] sends no issue and is answered 500: the
    formatter renders its fallback line for the absent data, and the template
    then reads [currentFocus] of the absent data. *)
Theorem dashboard_update_without_data :
  formatDashboardUpdates VUndefined
  = Some "General dashboard update from strategic conversation"
  /\ handler h (POST (VObj [("action", VStr "dashboard-update")]))
     = ({| status_code := 500; json_of := FailureBody "Processing failed" TypeError |}, []).
Proof. split; reflexivity. Qed.

(** C4.  A strategic-analysis request sends exactly one issue when the
    insights are absent or at most 100 characters long, whatever the tracker
    answers; when they are longer and the tracker accepts the first issue, it
    sends exactly two, and the second one carries the first 200 characters of
    the insights. *)
Theorem strategic_analysis_calls (b : value) :
  field b "action" = VStr "strategic-analysis" ->
  projects_shape (field b "projectUpdates") = true ->
  is_scalar (field b "researchNeeds") = true ->
  (field b "strategicInsights" = VUndefined ->
   length (calls (handler h (POST b))) = 1%nat)
  /\ (forall s, field b "strategicInsights" = VStr s ->
                (String.length s <= 100)%nat ->
                length (calls (handler h (POST b))) = 1%nat)
  /\ (forall s, field b "strategicInsights" = VStr s ->
                (100 < String.length s)%nat ->
                (forall x, hd_error (snd (handler h (POST b))) = Some x ->
                           accepted x = true) ->
                exists first second,
                  calls (handler h (POST b)) = [first; second]
                  /\ title second = "[EMAIL] Strategic Insights Brief"
                  /\ body second
                     = (nl ++ "Strategic insights brief" ++ nl
                        ++ "Custom strategic communication" ++ nl
                        ++ "Key insights: ")
                       ++ substring 0 200 s ++ ("..." ++ nl ++ "    ")).
Proof.
  intros Ha Hp Hr.
  assert (Hrun : forall insights, field b "strategicInsights" = insights ->
                   is_scalar insights = true ->
                   handler h (POST b)
                   = match post_all h (analysis_plan insights (field b "projectUpdates")
                                         (field b "researchNeeds")) [] with
                     | (Normal _, log) => (success (now h), log)
                     | (Throw error, log) =>
                         (respond 500 (FailureBody "Processing failed" error), log)
                     end).
  { intros insights Hi Hs.
    assert (Hshape : payload_shape b = true).
    { unfold payload_shape. rewrite Ha, Hi, Hs, Hp, Hr. reflexivity. }
    rewrite (handler_plan _ Hshape). unfold request_plan. rewrite Ha, Hi. reflexivity. }
  assert (Hone : forall i, length (calls match post_all h [i] [] with
                                         | (Normal _, log) => (success (now h), log)
                                         | (Throw error, log) =>
                                             (respond 500
                                                (FailureBody "Processing failed" error), log)
                                         end) = 1%nat).
  { intros i. unfold post_all. simpl for_each. rewrite bind_post.
    destruct (accepted _); reflexivity. }
  split; [|split].
  - intros Hi. rewrite (Hrun _ Hi eq_refl). apply Hone.
  - intros s Hi Hlen. rewrite (Hrun _ Hi eq_refl). unfold analysis_plan.
    replace (100 <? Z.of_nat (String.length s)) with false; [apply Hone|].
    symmetry. apply Z.ltb_ge. lia.
  - intros s Hi Hlen. rewrite (Hrun _ Hi eq_refl). unfold analysis_plan.
    replace (100 <? Z.of_nat (String.length s)) with true;
      [|symmetry; apply Z.ltb_lt; lia].
    unfold post_all. simpl for_each. rewrite bind_post.
    destruct (accepted (exchange_of h [] _)) eqn:Hfirst.
    + intros _. rewrite bind_post.
      exists (analysisIssue (VStr s) (field b "projectUpdates") (field b "researchNeeds")).
      exists (briefIssue s).
      split; [|split; reflexivity].
      destruct (accepted (exchange_of h _ (briefIssue s))); reflexivity.
    + intros Hhd. rewrite (Hhd _ eq_refl) in Hfirst. discriminate.
Qed.

(** C5.  A send-email request whose [emailRequests] is a sequence of [N]
    entries sends exactly [N] issues, one per entry and in the order of the
    entries, each titled with the subject of its entry, or with "Strategic
    Communication" in its place, provided the tracker accepts the calls before
    the last one (a call that is not accepted ends the run). *)
Theorem send_email_calls (b : value) (emails : list value) :
  field b "action" = VStr "send-email" ->
  field b "emailRequests" = VArr emails ->
  forallb email_shape emails = true ->
  forallb accepted (firstn (length emails - 1) (snd (handler h (POST b)))) = true ->
  calls (handler h (POST b)) = map email_issue emails
  /\ length (calls (handler h (POST b))) = length emails
  /\ map title (calls (handler h (POST b)))
     = map (fun email =>
              "[EMAIL] " ++ present_or (field email "subject") "Strategic Communication")
         emails.
Proof.
  intros Ha He Hs Hacc.
  assert (Hshape : payload_shape b = true).
  { unfold payload_shape. rewrite Ha, He. exact Hs. }
  assert (Hplan : request_plan b = map email_issue emails).
  { unfold request_plan. rewrite Ha, He. reflexivity. }
  assert (Hcalls : calls (handler h (POST b)) = map email_issue emails).
  { unfold calls. rewrite (handler_plan_log _ Hshape) in *. rewrite Hplan in *.
    destruct (post_all_made (map email_issue emails) []) as (made & Hlog & Hall).
    simpl in Hlog. rewrite Hlog in *. apply Hall. rewrite length_map. exact Hacc. }
  rewrite Hcalls.
  split; [reflexivity|]. split; [apply length_map|]. rewrite map_map. reflexivity.
Qed.

(** C6.  If an outbound call is answered with a status outside 200-299, that
    call is the last one of the run, and the handler answers 500 with the error
    "Processing failed" and, as details, a message made of the tracker's status
    code and the text of its answer. *)
Theorem tracker_failure_aborts (req : request) (before after : list exchange)
  (x : exchange) (r : reply) :
  snd (handler h req) = (before ++ x :: after)%list ->
  outcome x = Some r ->
  ok r = false ->
  after = []
  /\ fst (handler h req)
     = {| status_code := 500;
          json_of := FailureBody "Processing failed"
                       (Error ("GitHub API error: " ++ show (status r) ++ " " ++ text r)) |}.
Proof.
  intros Hlog Hx Hok.
  assert (Hrej : accepted x = false).
  { unfold accepted. rewrite Hx, Hok. reflexivity. }
  destruct (handler_disciplined req) as [_ [Hacc|(made & y & Hmade & Hbefore & Hy & Hres)]].
  - rewrite Hlog, forallb_app in Hacc. simpl in Hacc.
    rewrite Hrej, andb_false_r in Hacc. discriminate.
  - rewrite Hlog in Hmade. destruct (last_rejected _ _ _ _ _ Hmade) as [[Hafter <-]|Hin].
    + split; [exact Hafter|]. rewrite Hres. unfold failure. rewrite Hx, Hok. reflexivity.
    + rewrite forallb_forall in Hbefore. rewrite (Hbefore _ Hin) in Hrej. discriminate.
Qed.

(** C7.  A POST request whose [action] is absent or is not one of the four
    recognized values is answered 400 with the error "Unknown action type",
    whatever the other fields of the body are, and sends nothing. *)
Theorem unknown_action_rejected (b action : value) :
  get b "action" = Some action ->
  recognized action = false ->
  handler h (POST b)
  = ({| status_code := 400; json_of := ErrorBody "Unknown action type" |}, []).
Proof.
  intros Ha Hr. unfold recognized in Hr.
  apply orb_false_iff in Hr. destruct Hr as [Hr H4].
  apply orb_false_iff in Hr. destruct Hr as [Hr H3].
  apply orb_false_iff in Hr. destruct Hr as [H1 H2].
  assert (Hget : forall k, exists v, get b k = Some v).
  { intros k. destruct b; try discriminate; eexists; reflexivity. }
  destruct (Hget "conversationType") as [conversationType Hc].
  destruct (Hget "projectUpdates") as [projectUpdates Hp].
  destruct (Hget "strategicInsights") as [strategicInsights Hi].
  destruct (Hget "researchNeeds") as [researchNeeds Hn].
  destruct (Hget "emailRequests") as [emailRequests He].
  destruct (Hget "dashboardData") as [dashboardData Hd].
  unfold handler. simpl. unfold dispatch.
  rewrite Ha, Hc, Hp, Hi, Hn, He, Hd, !bind_lift_some, H1, H2, H3, H4. reflexivity.
Qed.

(** C8.  [formatProjectUpdates] returns "No specific project updates provided"
    when its argument is absent or null; for a mapping it returns one line per
    entry, in the order of the mapping, of the form
    "**<project>:** <progress or 'No progress specified'>% - <context or
    'Strategic context from conversation'>", the lines joined by line feeds. *)
Theorem formatProjectUpdates_lines (updates : list (string * value)) :
  is_mapping update_shape (VObj updates) = true ->
  formatProjectUpdates VUndefined = Some "No specific project updates provided"
  /\ formatProjectUpdates VNull = Some "No specific project updates provided"
  /\ formatProjectUpdates (VObj updates)
     = Some (join nl
               (map (fun entry =>
                       "**" ++ fst entry ++ ":** "
                       ++ present_or (field (snd entry) "progress") "No progress specified"
                       ++ "% - "
                       ++ present_or (field (snd entry) "context")
                            "Strategic context from conversation")
                  updates)).
Proof.
  intros H. split; [reflexivity|]. split; [reflexivity|].
  apply formatProjectUpdates_mapping. exact H.
Qed.


(** C10.  The fallback is chosen by truthiness: a progress of 0, and an empty
    string for the context, the insights, the research, the type, the content,
    the recipient, the framework, the subject, the current focus or the
    dashboard context, are rendered as the literal fallback text of the field,
    and give the output an absent field gives. *)
Theorem falsy_fields_fall_back :
  (forall fallback, present_or (VNum 0) fallback = fallback)
  /\ (forall fallback, present_or (VStr "") fallback = fallback)
  /\ (forall project progress context,
        is_scalar progress = true -> is_scalar context = true ->
        projectLine project progress context
        = Some (project_text project (present_or progress "No progress specified")
                  (present_or context "Strategic context from conversation")))
  /\ (forall insights projectText research,
        is_scalar insights = true -> is_scalar research = true ->
        analysisContent insights projectText research
        = Some (analysis_text
                  (present_or insights "Strategic insights from portfolio discussion")
                  projectText
                  (present_or research
                     "Research requirements identified during strategic conversation")))
  /\ (forall updates currentFocus context,
        is_scalar currentFocus = true -> is_scalar context = true ->
        dashboardContent updates currentFocus context
        = Some (dashboard_text updates
                  (present_or currentFocus "Strategic portfolio execution")
                  (present_or context "Updates from strategic conversation")))
  /\ (forall type content recipient framework,
        is_scalar type = true -> is_scalar content = true ->
        is_scalar recipient = true -> is_scalar framework = true ->
        emailContent type content recipient framework
        = Some (email_text
                  (present_or type "strategic communication")
                  (present_or content "Strategic communication from portfolio conversation")
                  (present_or recipient "strategic stakeholder")
                  (present_or framework "portfolio-based strategic approach")))
  /\ (forall subject,
        is_scalar subject = true ->
        emailTitle subject
        = Some ("[EMAIL] " ++ present_or subject "Strategic Communication"))
  /\ calls (handler h (POST (VObj [("action", VStr "strategic-analysis");
                                   ("strategicInsights", VStr "");
                                   ("researchNeeds", VStr "");
                                   ("projectUpdates",
                                    VObj [("alpha", VObj [("progress", VNum 0);
                                                          ("context", VStr "")])])])))
     = [{| title := "[DASHBOARD] Strategic Analysis Update";
           body := nl ++ "Strategic Analysis Update" ++ nl
                   ++ nl ++ "## Key Insights" ++ nl
                   ++ "Strategic insights from portfolio discussion" ++ nl
                   ++ nl ++ "## Project Context Updates" ++ nl
                   ++ "**alpha:** No progress specified% - Strategic context from conversation" ++ nl
                   ++ nl ++ "## Additional Research Needed" ++ nl
                   ++ "Research requirements identified during strategic conversation" ++ nl
                   ++ nl ++ "## Strategic Synthesis" ++ nl
                   ++ "Cross-project implications and strategic positioning adjustments identified."
                   ++ nl |}]
  /\ calls (handler h (POST (VObj [("action", VStr "dashboard-update");
                                   ("dashboardData",
                                    VObj [("currentFocus", VStr "");
                                          ("context", VStr "")])])))
     = [{| title := "[DASHBOARD] Contextual Update";
           body := nl ++ "Dashboard Update with Strategic Context" ++ nl
                   ++ nl ++ "General dashboard update from strategic conversation" ++ nl
                   ++ nl ++ "Focus: Strategic portfolio execution" ++ nl
                   ++ "Strategic Context: Updates from strategic conversation" ++ nl |}]
  /\ calls (handler h (POST (VObj [("action", VStr "send-email");
                                   ("emailRequests",
                                    VArr [VObj [("type", VStr "");
                                                ("content", VStr "");
                                                ("recipient", VStr "");
                                                ("framework", VStr "");
                                                ("subject", VStr "")]])])))
     = [{| title := "[EMAIL] Strategic Communication";
           body := nl ++ "strategic communication" ++ nl
                   ++ nl ++ "Strategic communication from portfolio conversation" ++ nl
                   ++ nl ++ "Recipient context: strategic stakeholder" ++ nl
                   ++ "Strategic framework: portfolio-based strategic approach" ++ nl
                   ++ "    " |}]
  /\ (forall project context,
     projectLine project (VNum 0) context = projectLine project VUndefined context)
  /\ (forall project progress,
        projectLine project progress (VStr "") = projectLine project progress VUndefined)
  /\ (forall projects research log,
        processStrategicAnalysis h (VStr "") projects research log
        = processStrategicAnalysis h VUndefined projects research log)
  /\ (forall insights projects log,
        processStrategicAnalysis h insights projects (VStr "") log
        = processStrategicAnalysis h insights projects VUndefined log)
  /\ (forall content recipient framework,
        emailContent (VStr "") content recipient framework
        = emailContent VUndefined content recipient framework)
  /\ (forall type recipient framework,
        emailContent type (VStr "") recipient framework
        = emailContent type VUndefined recipient framework)
  /\ (forall type content framework,
        emailContent type content (VStr "") framework
        = emailContent type content VUndefined framework)
  /\ (forall type content recipient,
        emailContent type content recipient (VStr "")
        = emailContent type content recipient VUndefined)
  /\ emailTitle (VStr "") = emailTitle VUndefined
  /\ (forall updates context,
        dashboardContent updates (VStr "") context
        = dashboardContent updates VUndefined context)
  /\ (forall updates currentFocus,
        dashboardContent updates currentFocus (VStr "")
        = dashboardContent updates currentFocus VUndefined).
Proof.
  do 2 (split; [intros; reflexivity|]).
  split; [intros; apply projectLine_text; assumption|].
  split; [intros; apply analysisContent_text; assumption|].
  split; [intros; apply dashboardContent_text; assumption|].
  split; [intros; apply emailContent_text; assumption|].
  split; [intros; apply emailTitle_text; assumption|].
  do 3 (split; [apply single_call; reflexivity|]).
  repeat split; intros; reflexivity.
Qed.

(** ** More of the handler *)

(** *** The method check and the body *)

(** X1.  Any method other than POST is answered 405, whatever the body is, and
    nothing is sent. *)
Theorem non_post_rejected (req : request) :
  method req <> "POST" ->
  handler h req
  = ({| status_code := 405; json_of := ErrorBody "Method not allowed" |}, []).
Proof.
  intros Hm. apply String.eqb_neq in Hm. unfold handler. rewrite Hm. reflexivity.
Qed.

(** X2.  A POST whose body is null or undefined fails at the destructuring, inside
    the [try]: it is answered 500 and nothing is sent. *)
Theorem body_without_fields_fails (b : value) :
  b = VNull \/ b = VUndefined ->
  handler h (POST b)
  = ({| status_code := 500; json_of := FailureBody "Processing failed" TypeError |}, []).
Proof. intros [-> | ->]; reflexivity. Qed.

Lemma dispatch_normal (b : value) (log log' : list exchange) (res : http_response) :
  dispatch h b log = (Normal res, log') ->
  res = success (now h)
  \/ (res = respond 400 (ErrorBody "Unknown action type") /\ log' = log).
Proof.
  unfold dispatch.
  destruct (get b "action") as [action|]; [|discriminate].
  destruct (get b "conversationType") as [conversationType|]; [|discriminate].
  destruct (get b "projectUpdates") as [projectUpdates|]; [|discriminate].
  destruct (get b "strategicInsights") as [strategicInsights|]; [|discriminate].
  destruct (get b "researchNeeds") as [researchNeeds|]; [|discriminate].
  destruct (get b "emailRequests") as [emailRequests|]; [|discriminate].
  destruct (get b "dashboardData") as [dashboardData|]; [|discriminate].
  rewrite !bind_lift_some.
  repeat match goal with
         | |- context [if ?c then _ else _] => destruct c
         end;
    try (unfold bind, ret;
         match goal with
         | |- context [match ?m log with _ => _ end] => destruct (m log) as [[[]|e] l]
         end;
         intros H; inversion H; left; reflexivity).
  unfold ret. intros H. inversion H. right. split; reflexivity.
Qed.

(** X3.  The caller always receives one of four answers, and the two refusals (405
    and 400) are given before anything is sent to the tracker. *)
Theorem response_classes (req : request) :
  (fst (handler h req) = {| status_code := 405; json_of := ErrorBody "Method not allowed" |}
   /\ snd (handler h req) = [])
  \/ (fst (handler h req) = {| status_code := 400; json_of := ErrorBody "Unknown action type" |}
      /\ snd (handler h req) = [])
  \/ fst (handler h req)
     = {| status_code := 200;
          json_of := SuccessBody true "Strategic update processed successfully" (now h) |}
  \/ exists error,
       fst (handler h req)
       = {| status_code := 500; json_of := FailureBody "Processing failed" error |}.
Proof.
  unfold handler. destruct (negb (method req =? "POST")%string).
  - left. split; reflexivity.
  - destruct (dispatch h (req_body req) []) as [[res|e] log] eqn:Hrun.
    + destruct (dispatch_normal _ _ _ _ Hrun) as [->|[-> ->]].
      * right. right. left. reflexivity.
      * right. left. split; reflexivity.
    + right. right. right. exists e. reflexivity.
Qed.

(** X4.  Success is never reported over a failed call: when the answer is 200,
    every exchange of the run was accepted by the tracker. *)
Theorem success_means_all_accepted (req : request) :
  status_code (fst (handler h req)) = 200 ->
  forallb accepted (snd (handler h req)) = true.
Proof.
  intros Hok.
  destruct (handler_disciplined req) as [_ [Hacc|(before & x & _ & _ & _ & Hres)]].
  - exact Hacc.
  - rewrite Hres in Hok. discriminate.
Qed.

(** X5.  A call that does not reach the tracker, or that is answered 2xx with a
    body that is not JSON, ends the run like a refusal does: it is the last
    call, and the answer is 500. *)
Theorem failed_call_aborts (req : request) (before after : list exchange) (x : exchange) :
  snd (handler h req) = (before ++ x :: after)%list ->
  (outcome x = None ->
   after = []
   /\ fst (handler h req)
      = {| status_code := 500; json_of := FailureBody "Processing failed" TypeError |})
  /\ (forall r, outcome x = Some r -> ok r = true -> json r = None ->
      after = []
      /\ fst (handler h req)
         = {| status_code := 500; json_of := FailureBody "Processing failed" SyntaxError |}).
Proof.
  intros Hlog.
  assert (Hgen : accepted x = false ->
                 after = []
                 /\ fst (handler h req) = respond 500 (FailureBody "Processing failed" (failure x))).
  { intros Hrej.
    destruct (handler_disciplined req) as [_ [Hacc|(made & y & Hmade & Hbefore & Hy & Hres)]].
    - rewrite Hlog, forallb_app in Hacc. simpl in Hacc.
      rewrite Hrej, andb_false_r in Hacc. discriminate.
    - rewrite Hlog in Hmade. destruct (last_rejected _ _ _ _ _ Hmade) as [[Hafter <-]|Hin].
      + split; [exact Hafter|exact Hres].
      + rewrite forallb_forall in Hbefore. rewrite (Hbefore _ Hin) in Hrej. discriminate. }
  split.
  - intros Hx. unfold accepted, failure in Hgen. rewrite Hx in Hgen. apply Hgen. reflexivity.
  - intros r Hx Hok Hjson. unfold accepted, failure in Hgen. rewrite Hx, Hok, Hjson in Hgen.
    apply Hgen. reflexivity.
Qed.

(** *** The processors at the edges *)

Lemma handler_post (b : value) :
  handler h (POST b)
  = match dispatch h b [] with
    | (Normal res, log) => (res, log)
    | (Throw error, log) => (respond 500 (FailureBody "Processing failed" error), log)
    end.
Proof. reflexivity. Qed.

(** The comparisons of a known action with the four literals. *)
Ltac decide_action :=
  repeat match goal with
         | |- context [is_string (VStr ?a) ?l] =>
             let v := eval vm_compute in (is_string (VStr a) l) in
             change (is_string (VStr a) l) with v
         end;
  cbv iota.

(** The dispatch on an object, once its fields are read. *)
Ltac read_fields Ha :=
  rewrite handler_post; unfold dispatch;
  rewrite !get_object, !bind_lift_some, Ha; decide_action.

(** X7.  A complex update none of whose groups is present (no dashboard data, no
    insights, and email requests that are absent or an empty sequence) is a
    successful no-op, whatever [projectUpdates] is. *)
Theorem complex_update_of_nothing (b : value) :
  field b "action" = VStr "complex-update" ->
  truthy (field b "dashboardData") = false ->
  truthy (field b "strategicInsights") = false ->
  truthy (field b "emailRequests") = false \/ field b "emailRequests" = VArr [] ->
  handler h (POST b)
  = ({| status_code := 200;
        json_of := SuccessBody true "Strategic update processed successfully" (now h) |},
     []).
Proof.
  intros Ha Hd Hi He.
  assert (Hobj : exists fields, b = VObj fields).
  { apply (action_object b "complex-update"). rewrite Ha. reflexivity. }
  destruct Hobj as [fields ->].
  read_fields Ha. unfold processComplexStrategicUpdate.
  rewrite Hd, Hi.
  assert (Hn : nonempty h (field (VObj fields) "emailRequests") = Some false).
  { unfold nonempty. destruct He as [He|He]; rewrite He; reflexivity. }
  unfold bind at 1. unfold bind at 1. unfold bind at 1. unfold ret at 1. unfold ret at 1.
  rewrite Hn. reflexivity.
Qed.

(** X8.  A complex update processes each group that is present, in the fixed order
    dashboard, analysis, emails, and skips the others: when the tracker accepts
    its calls, the issues sent are those of the groups present. *)
Theorem complex_update_groups (b : value) :
  field b "action" = VStr "complex-update" ->
  complex_shape (field b "projectUpdates") (field b "strategicInsights")
    (field b "dashboardData") (field b "emailRequests") = true ->
  forallb accepted (snd (handler h (POST b))) = true ->
  calls (handler h (POST b))
  = ((if truthy (field b "dashboardData")
      then [dashboardIssue (field b "dashboardData")] else [])
     ++ (if truthy (field b "strategicInsights")
         then analysis_plan (field b "strategicInsights") (field b "projectUpdates")
                VUndefined
         else [])
     ++ match field b "emailRequests" with
        | VArr emails => map email_issue emails
        | _ => []
        end)%list.
Proof.
  intros Ha Hs Hacc.
  assert (Hshape : payload_shape b = true).
  { unfold payload_shape. rewrite Ha. exact Hs. }
  destruct (handler_accepted _ Hshape Hacc) as [_ ->].
  unfold request_plan. rewrite Ha. reflexivity.
Qed.

(** X9.  A send-email request whose [emailRequests] cannot be iterated (it is
    absent, null, a boolean, a number or an object) is answered 500, and
    nothing is sent. *)
Theorem send_email_not_iterable (b : value) :
  field b "action" = VStr "send-email" ->
  iterate (field b "emailRequests") = None ->
  handler h (POST b)
  = ({| status_code := 500; json_of := FailureBody "Processing failed" TypeError |}, []).
Proof.
  intros Ha He.
  assert (Hobj : exists fields, b = VObj fields).
  { apply (action_object b "send-email"). rewrite Ha. reflexivity. }
  destruct Hobj as [fields ->].
  read_fields Ha. unfold triggerStrategicEmail. rewrite He. reflexivity.
Qed.

Lemma post_all_prefix (plan : list issue) (log : list exchange) :
  exists made,
    snd (post_all h plan log) = (log ++ made)%list
    /\ map sent made = firstn (length made) plan.
Proof.
  unfold post_all. revert log.
  induction plan as [|i rest IH]; intros log; simpl for_each.
  - exists []. simpl. rewrite app_nil_r. split; reflexivity.
  - rewrite bind_post. destruct (accepted (exchange_of h log i)).
    + destruct (IH (log ++ [exchange_of h log i])%list) as (made & Hlog & Hsent).
      exists (exchange_of h log i :: made). rewrite Hlog, <- app_assoc.
      split; [reflexivity|]. simpl. rewrite Hsent. reflexivity.
    + exists [exchange_of h log i]. split; reflexivity.
Qed.

(** X10.  Whatever the tracker answers, the emails sent are an initial segment of
    the entries' issues: no entry is skipped, none is sent twice or out of
    order. *)
Theorem send_email_in_order (b : value) (emails : list value) :
  field b "action" = VStr "send-email" ->
  field b "emailRequests" = VArr emails ->
  forallb email_shape emails = true ->
  calls (handler h (POST b))
  = firstn (length (calls (handler h (POST b)))) (map email_issue emails).
Proof.
  intros Ha He Hs.
  assert (Hshape : payload_shape b = true).
  { unfold payload_shape. rewrite Ha, He. exact Hs. }
  unfold calls. rewrite (handler_plan_log _ Hshape).
  unfold request_plan. rewrite Ha, He. simpl is_string. cbv iota. simpl emails_plan.
  destruct (post_all_prefix (map email_issue emails) []) as (made & Hlog & Hsent).
  simpl in Hlog. rewrite Hlog, length_map. exact Hsent.
Qed.

Lemma for_each_app {A : Type} (first second : list A) (f : A -> M unit)
  (log : list exchange) :
  for_each (first ++ second)%list f log = (_ <- for_each first f ;; for_each second f) log.
Proof.
  revert log. induction first as [|x rest IH]; intros log; simpl.
  - reflexivity.
  - unfold bind in *. destruct (f x log) as [[[]|e] log']; [apply IH|reflexivity].
Qed.

(** X11.  The entries before a null entry are sent, the request is then answered
    500: an answer 500 does not mean that nothing was created. *)
Theorem send_email_stops_at_null (b : value) (before after : list value) :
  field b "action" = VStr "send-email" ->
  field b "emailRequests" = VArr (before ++ VNull :: after) ->
  forallb email_shape before = true ->
  forallb accepted (snd (handler h (POST b))) = true ->
  fst (handler h (POST b))
  = {| status_code := 500; json_of := FailureBody "Processing failed" TypeError |}
  /\ calls (handler h (POST b)) = map email_issue before.
Proof.
  intros Ha He Hs.
  assert (Hobj : exists fields, b = VObj fields).
  { apply (action_object b "send-email"). rewrite Ha. reflexivity. }
  destruct Hobj as [fields ->].
  read_fields Ha. rewrite He.
  assert (Hrun : forall log,
             triggerStrategicEmail h (VArr (before ++ VNull :: after)) log
             = (_ <- post_all h (map email_issue before) ;; throw TypeError) log).
  { intros log. unfold triggerStrategicEmail. simpl iterate.
    rewrite bind_lift_some, for_each_app. apply bind_ext.
    - assert (H := triggerStrategicEmail_plan before log Hs).
      unfold triggerStrategicEmail in H. simpl iterate in H.
      rewrite bind_lift_some in H. exact H.
    - intros _ log'. reflexivity. }
  rewrite (bind_ext _ _ _ _ [] (Hrun []) (fun _ _ => eq_refl)). unfold bind, throw.
  destruct (post_all h (map email_issue before) []) as [[[]|e] log] eqn:Hp; simpl; intros Hacc.
  - assert (H := post_all_accepted (map email_issue before) []).
    rewrite Hp in H. destruct (H Hacc) as [_ Hc]. split; [reflexivity|exact Hc].
  - assert (H := post_all_accepted (map email_issue before) []).
    rewrite Hp in H. destruct (H Hacc) as [Hr _]. discriminate.
Qed.

(** *** The formatters *)

(** X13.  [formatDashboardUpdates] returns the fallback line for absent data and for
    data without a [projects] mapping, and otherwise one line "<project>:
    <value>" per entry, in the order of the mapping, joined by line feeds. *)
Theorem formatDashboardUpdates_lines (fields mapping : list (string * value)) :
  lookup "projects" fields = VObj mapping ->
  forallb (fun entry => is_scalar (snd entry)) mapping = true ->
  formatDashboardUpdates VUndefined
  = Some "General dashboard update from strategic conversation"
  /\ formatDashboardUpdates VNull
     = Some "General dashboard update from strategic conversation"
  /\ formatDashboardUpdates (VObj (without "projects" fields))
     = Some "General dashboard update from strategic conversation"
  /\ formatDashboardUpdates (VObj fields)
     = Some (join nl (map (fun entry => fst entry ++ ": " ++ the_text (ToString (snd entry)))
                        mapping)).
Proof.
  intros Hl Hs. split; [reflexivity|]. split; [reflexivity|]. split.
  - apply formatDashboardUpdates_fallback. rewrite lookup_without_same. reflexivity.
  - apply (formatDashboardUpdates_mapping _ _ Hl Hs).
Qed.

(** X14.  A dashboard-update request whose [dashboardData] is an object sends exactly
    one issue, whatever the tracker answers: the dashboard section, then the
    focus and the context, each with its fallback. *)
Theorem dashboard_update_issue (b : value) :
  field b "action" = VStr "dashboard-update" ->
  dashboard_shape (field b "dashboardData") = true ->
  calls (handler h (POST b))
  = [{| title := "[DASHBOARD] Contextual Update";
        body := nl ++ "Dashboard Update with Strategic Context" ++ nl
                ++ nl ++ the_text (formatDashboardUpdates (field b "dashboardData")) ++ nl
                ++ nl ++ "Focus: "
                ++ present_or (field (field b "dashboardData") "currentFocus")
                     "Strategic portfolio execution" ++ nl
                ++ "Strategic Context: "
                ++ present_or (field (field b "dashboardData") "context")
                     "Updates from strategic conversation" ++ nl |}].
Proof.
  intros Ha Hd. rewrite (dashboard_update_calls _ Ha Hd).
  destruct (formatDashboardUpdates_shape _ Hd) as [t Ht].
  unfold dashboard_shape in Hd. apply andb_true_iff in Hd. destruct Hd as [Hr _].
  assert (Hf := is_record_field _ _ "currentFocus" Hr (or_introl eq_refl)).
  assert (Hc := is_record_field _ _ "context" Hr (or_intror (or_introl eq_refl))).
  unfold dashboardIssue, dashboardContent.
  rewrite Ht, (text_or_scalar _ _ Hf), (text_or_scalar _ _ Hc). reflexivity.
Qed.

(** X15.  A mapping that is present but has no entry (an empty object, and any
    other truthy value without entries) renders as the empty text, not as the
    fallback line: the fallback is for falsy values only. *)
Theorem empty_mapping_renders_nothing (projects : value) (fields : list (string * value)) :
  truthy projects = true ->
  entries projects = Some [] ->
  lookup "projects" fields = projects ->
  formatProjectUpdates projects = Some EmptyString
  /\ formatDashboardUpdates (VObj fields) = Some EmptyString.
Proof.
  intros Ht He Hl. unfold formatProjectUpdates, formatDashboardUpdates.
  simpl get. rewrite Hl, Ht, He. split; reflexivity.
Qed.

Lemma map_opt_none {A B : Type} (f : A -> option B) (l : list A) (x : A) :
  In x l -> f x = None -> map_opt f l = None.
Proof.
  intros Hin Hx. induction l as [|y rest IH]; [destruct Hin|].
  simpl. destruct Hin as [->|Hin].
  - rewrite Hx. reflexivity.
  - destruct (f y); [|reflexivity]. rewrite (IH Hin). reflexivity.
Qed.

(** X16.  A null update in [projectUpdates] makes the formatter throw: the
    strategic-analysis request is answered 500 and nothing is sent. *)
Theorem null_update_fails (b : value) (updates : list (string * value)) (project : string) :
  field b "action" = VStr "strategic-analysis" ->
  field b "projectUpdates" = VObj updates ->
  In (project, VNull) updates ->
  formatProjectUpdates (VObj updates) = None
  /\ handler h (POST b)
     = ({| status_code := 500; json_of := FailureBody "Processing failed" TypeError |}, []).
Proof.
  intros Ha Hp Hin.
  assert (Hf : formatProjectUpdates (VObj updates) = None).
  { unfold formatProjectUpdates. simpl truthy. simpl entries. cbv iota. simpl negb. cbv iota.
    rewrite (map_opt_none _ _ _ Hin); reflexivity. }
  split; [exact Hf|].
  assert (Hobj : exists fields, b = VObj fields).
  { apply (action_object b "strategic-analysis"). rewrite Ha. reflexivity. }
  destruct Hobj as [fields ->].
  read_fields Ha. rewrite Hp. unfold processStrategicAnalysis. rewrite Hf. reflexivity.
Qed.

(** *** Fields the handler does not read *)

(** X17.  [conversationType] is only logged: setting it to any value changes neither
    the answer nor the calls. *)
Theorem conversationType_ignored (fields : list (string * value)) (v : value) :
  handler h (POST (set_field "conversationType" v fields)) = handler h (POST (VObj fields)).
Proof.
  rewrite !handler_post. unfold dispatch, set_field.
  rewrite !get_object, !bind_lift_some.
  change (VObj (("conversationType", v) :: without "conversationType" fields))
    with (set_field "conversationType" v fields).
  rewrite !field_set_field_other by reflexivity. reflexivity.
Qed.

(** X18.  A complex update does not read [researchNeeds]: setting it to any value
    changes neither the answer nor the calls. *)
Theorem complex_update_ignores_research (fields : list (string * value)) (v : value) :
  lookup "action" fields = VStr "complex-update" ->
  handler h (POST (set_field "researchNeeds" v fields)) = handler h (POST (VObj fields)).
Proof.
  intros Ha. rewrite !handler_post. unfold dispatch, set_field.
  rewrite !get_object, !bind_lift_some.
  change (VObj (("researchNeeds", v) :: without "researchNeeds" fields))
    with (set_field "researchNeeds" v fields).
  rewrite (field_set_field_other "researchNeeds" "action") by reflexivity.
  change (field (VObj fields) "action") with (lookup "action" fields).
  rewrite Ha. decide_action.
  rewrite !field_set_field_other by reflexivity. reflexivity.
Qed.

(** *** What every run sends *)

Lemma emits_ret (P : issue -> Prop) {A : Type} (a : A) : emits P (ret a).
Proof. intros log. exists []. simpl. rewrite app_nil_r. split; [reflexivity|constructor]. Qed.

Lemma emits_bind (P : issue -> Prop) {A B : Type} (m : M A) (k : A -> M B) :
  emits P m -> (forall a, emits P (k a)) -> emits P (x <- m ;; k x).
Proof.
  intros Hm Hk log. destruct (Hm log) as (made & Hlog & Hsent).
  unfold bind. destruct (m log) as [[a|e] log1]; simpl in *; subst log1.
  - destruct (Hk a (log ++ made)%list) as (made' & Hlog' & Hsent').
    exists (made ++ made')%list. rewrite Hlog', app_assoc.
    split; [reflexivity|apply Forall_app; split; assumption].
  - exists made. split; [reflexivity|assumption].
Qed.

Lemma emits_lift_bind (P : issue -> Prop) {A B : Type} (o : option A) (k : A -> M B) :
  (forall a, o = Some a -> emits P (k a)) -> emits P (x <- lift o ;; k x).
Proof.
  intros Hk. destruct o as [a|].
  - intros log. rewrite bind_lift_some. apply Hk. reflexivity.
  - intros log. rewrite bind_lift_none. exists []. simpl. rewrite app_nil_r.
    split; [reflexivity|constructor].
Qed.

Lemma emits_call (P : issue -> Prop) {A : Type} (t b : string) (k : M A) :
  P {| title := t; body := b |} -> emits P k ->
  emits P (_ <- createGitHubIssue h t b ;; k).
Proof.
  intros Hi Hk log. rewrite createGitHubIssue_post, bind_post.
  destruct (accepted _).
  - destruct (Hk (log ++ [exchange_of h log {| title := t; body := b |}])%list)
      as (made & Hlog & Hsent).
    exists (exchange_of h log {| title := t; body := b |} :: made).
    rewrite Hlog, <- app_assoc. split; [reflexivity|]. constructor; assumption.
  - exists [exchange_of h log {| title := t; body := b |}].
    split; [reflexivity|]. constructor; [exact Hi|constructor].
Qed.

Lemma emits_for_each (P : issue -> Prop) {A : Type} (l : list A) (f : A -> M unit) :
  (forall x, emits P (f x)) -> emits P (for_each l f).
Proof.
  intros Hf. induction l as [|x rest IH]; simpl.
  - apply emits_ret.
  - apply emits_bind; [apply Hf|intros _; exact IH].
Qed.

Lemma emits_if (P : issue -> Prop) {A : Type} (c : bool) (m m' : M A) :
  emits P m -> emits P m' -> emits P (if c then m else m').
Proof. destruct c; intros; assumption. Qed.

Lemma prefix_append (p s : string) : String.prefix p (p ++ s) = true.
Proof.
  induction p as [|c p IH]; simpl; [destruct s; reflexivity|].
  destruct (ascii_dec c c) as [_|Hc]; [exact IH|elim Hc; reflexivity].
Qed.

Lemma emailIssue_labelled (email : value) (i : issue) :
  emailIssue email = Some i -> labelled i.
Proof.
  unfold emailIssue, emailTitle.
  destruct (get email "type") as [type|]; [|discriminate].
  destruct (get email "content") as [content|]; [|discriminate].
  destruct (get email "recipient") as [recipient|]; [|discriminate].
  destruct (get email "framework") as [framework|]; [|discriminate].
  destruct (emailContent type content recipient framework); [|discriminate].
  destruct (get email "subject") as [subject|]; [|discriminate].
  destruct (text_or subject _); [|discriminate].
  intros H. injection H as <-. right. apply (prefix_append "[EMAIL] ").
Qed.

Lemma emits_dispatch (b : value) : emits labelled (dispatch h b).
Proof.
  assert (Ha : forall i p r, emits labelled (processStrategicAnalysis h i p r)).
  { intros i p r. unfold processStrategicAnalysis.
    apply emits_lift_bind. intros c _.
    apply emits_call; [left; apply (prefix_append "[DASHBOARD] " "Strategic Analysis Update")|].
    apply emits_lift_bind. intros long _.
    apply emits_if; [|apply emits_ret].
    apply emits_lift_bind. intros excerpt _.
    apply emits_call;
      [right; apply (prefix_append "[EMAIL] " "Strategic Insights Brief")|apply emits_ret]. }
  assert (Hd : forall d, emits labelled (updateDashboardWithContext h d)).
  { intros d. unfold updateDashboardWithContext.
    apply emits_lift_bind. intros c _.
    apply emits_call;
      [left; apply (prefix_append "[DASHBOARD] " "Contextual Update")|apply emits_ret]. }
  assert (He : forall e, emits labelled (triggerStrategicEmail h e)).
  { intros e. unfold triggerStrategicEmail.
    apply emits_lift_bind. intros emails _.
    apply emits_for_each. intros email.
    apply emits_lift_bind. intros i Hi.
    apply emits_call; [|apply emits_ret].
    destruct i as [t c]. exact (emailIssue_labelled _ _ Hi). }
  unfold dispatch.
  do 7 (apply emits_lift_bind; intros ? _).
  repeat apply emits_if; try apply emits_ret;
    (apply emits_bind; [|intros _; apply emits_ret]).
  - apply Ha.
  - apply Hd.
  - apply He.
  - unfold processComplexStrategicUpdate.
    apply emits_bind; [apply emits_if; [apply Hd|apply emits_ret]|intros _].
    apply emits_bind; [apply emits_if; [apply Ha|apply emits_ret]|intros _].
    apply emits_lift_bind. intros some _.
    apply emits_if; [apply He|apply emits_ret].
Qed.

Lemma handler_log (req : request) :
  snd (handler h req) = [] \/ snd (handler h req) = snd (dispatch h (req_body req) []).
Proof.
  unfold handler. destruct (negb _); [left; reflexivity|right].
  destruct (dispatch h (req_body req) []) as [[res|e] log]; reflexivity.
Qed.

(** X19.  Every issue sent, for every request and every tracker, carries one of the
    two labels of the source at the head of its title. *)
Theorem titles_labelled (req : request) :
  Forall (fun i => String.prefix "[DASHBOARD] " (title i) = true
                   \/ String.prefix "[EMAIL] " (title i) = true)
    (calls (handler h req)).
Proof.
  unfold calls. destruct (handler_log req) as [->| ->]; [constructor|].
  destruct (emits_dispatch (req_body req) []) as (made & Hlog & Hsent).
  simpl in Hlog. rewrite Hlog. apply Forall_map. exact Hsent.
Qed.

Lemma at_most_ret {A : Type} (n : nat) (a : A) : at_most n (ret a).
Proof.
  intros log. exists []. simpl. rewrite app_nil_r. split; [reflexivity|lia].
Qed.

Lemma at_most_bind {A B : Type} (n n' : nat) (m : M A) (k : A -> M B) :
  at_most n m -> (forall a, at_most n' (k a)) -> at_most (n + n') (x <- m ;; k x).
Proof.
  intros Hm Hk log. destruct (Hm log) as (made & Hlog & Hlen).
  unfold bind. destruct (m log) as [[a|e] log1]; simpl in *; subst log1.
  - destruct (Hk a (log ++ made)%list) as (made' & Hlog' & Hlen').
    exists (made ++ made')%list. rewrite Hlog', app_assoc, length_app.
    split; [reflexivity|lia].
  - exists made. split; [reflexivity|lia].
Qed.

Lemma at_most_lift_bind {A B : Type} (n : nat) (o : option A) (k : A -> M B) :
  (forall a, at_most n (k a)) -> at_most n (x <- lift o ;; k x).
Proof.
  intros Hk. destruct o as [a|].
  - intros log. rewrite bind_lift_some. apply Hk.
  - intros log. rewrite bind_lift_none. exists []. simpl. rewrite app_nil_r.
    split; [reflexivity|lia].
Qed.

Lemma at_most_call {A : Type} (n : nat) (t b : string) (k : M A) :
  at_most n k -> at_most (S n) (_ <- createGitHubIssue h t b ;; k).
Proof.
  intros Hk log. rewrite createGitHubIssue_post, bind_post.
  destruct (accepted _).
  - destruct (Hk (log ++ [exchange_of h log {| title := t; body := b |}])%list)
      as (made & Hlog & Hlen).
    exists (exchange_of h log {| title := t; body := b |} :: made).
    rewrite Hlog, <- app_assoc. split; [reflexivity|simpl; lia].
  - exists [exchange_of h log {| title := t; body := b |}].
    split; [reflexivity|simpl; lia].
Qed.

Lemma at_most_if {A : Type} (n : nat) (c : bool) (m m' : M A) :
  at_most n m -> at_most 0 m' -> at_most n (if c then m else m').
Proof.
  destruct c; intros Hm Hm'; [exact Hm|].
  intros log. destruct (Hm' log) as (made & Hlog & Hlen).
  exists made. split; [exact Hlog|lia].
Qed.

Lemma at_most_for_each {A : Type} (l : list A) (f : A -> M unit) :
  (forall x, at_most 1 (f x)) -> at_most (length l) (for_each l f).
Proof.
  intros Hf. induction l as [|x rest IH]; simpl for_each.
  - apply at_most_ret.
  - apply (at_most_bind 1 (length rest)); [apply Hf|intros _; exact IH].
Qed.

Lemma at_most_processStrategicAnalysis (insights projects research : value) :
  at_most 2 (processStrategicAnalysis h insights projects research).
Proof.
  unfold processStrategicAnalysis.
  apply at_most_lift_bind. intros c.
  apply at_most_call.
  apply at_most_lift_bind. intros long.
  apply at_most_if; [|apply at_most_ret].
  apply at_most_lift_bind. intros excerpt.
  apply at_most_call. apply at_most_ret.
Qed.

Lemma at_most_updateDashboardWithContext (dashboardData : value) :
  at_most 1 (updateDashboardWithContext h dashboardData).
Proof.
  unfold updateDashboardWithContext.
  apply at_most_lift_bind. intros c. apply at_most_call. apply at_most_ret.
Qed.

Lemma at_most_triggerStrategicEmail (emails : list value) :
  at_most (length emails) (triggerStrategicEmail h (VArr emails)).
Proof.
  unfold triggerStrategicEmail. simpl iterate.
  intros log. rewrite bind_lift_some. revert log.
  apply at_most_for_each. intros email.
  apply at_most_lift_bind. intros i. apply at_most_call. apply at_most_ret.
Qed.

Lemma at_most_answer {A : Type} (n : nat) (m : M A) (res : http_response)
  (log : list exchange) :
  at_most n m -> (length (snd ((_ <- m ;; ret res) log)) <= length log + n)%nat.
Proof.
  intros Hm. destruct (Hm log) as (made & Hlog & Hlen).
  unfold bind, ret. destruct (m log) as [[a|e] log1]; simpl in *; subst log1;
    rewrite length_app; lia.
Qed.

(** X20.  Whatever the payload and the tracker, a dashboard update makes at most one
    call, a strategic analysis at most two, and a send-email request at most
    one call per entry. *)
Theorem calls_bounded (b : value) :
  (field b "action" = VStr "dashboard-update" ->
   (length (calls (handler h (POST b))) <= 1)%nat)
  /\ (field b "action" = VStr "strategic-analysis" ->
      (length (calls (handler h (POST b))) <= 2)%nat)
  /\ (forall emails,
        field b "action" = VStr "send-email" ->
        field b "emailRequests" = VArr emails ->
        (length (calls (handler h (POST b))) <= length emails)%nat).
Proof.
  assert (Hsnd : snd (handler h (POST b)) = snd (dispatch h b [])).
  { rewrite handler_post. destruct (dispatch h b []) as [[res|e] log]; reflexivity. }
  unfold calls. rewrite length_map, Hsnd.
  split; [|split].
  - intros Ha. destruct (action_object b "dashboard-update") as [fields ->];
      [rewrite Ha; reflexivity|].
    unfold dispatch. rewrite !get_object, !bind_lift_some, Ha. decide_action.
    apply (at_most_answer 1 _ _ []). apply at_most_updateDashboardWithContext.
  - intros Ha. destruct (action_object b "strategic-analysis") as [fields ->];
      [rewrite Ha; reflexivity|].
    unfold dispatch. rewrite !get_object, !bind_lift_some, Ha. decide_action.
    apply (at_most_answer 2 _ _ []). apply at_most_processStrategicAnalysis.
  - intros emails Ha He. destruct (action_object b "send-email") as [fields ->];
      [rewrite Ha; reflexivity|].
    unfold dispatch. rewrite !get_object, !bind_lift_some, Ha. decide_action. rewrite He.
    apply (at_most_answer (length emails) _ _ []). apply at_most_triggerStrategicEmail.
Qed.

(** X6.  In every run, each call but the last one was accepted: a call is made
    only after all the calls before it have succeeded. *)
Theorem earlier_calls_accepted (req : request) :
  forallb accepted (removelast (snd (handler h req))) = true.
Proof.
  destruct (handler_disciplined req) as [_ [Hacc|(before & x & Hlog & Hbefore & _ & _)]].
  - apply forallb_forall. intros y Hy. rewrite forallb_forall in Hacc. apply Hacc.
    revert Hy. generalize (snd (handler h req)).
    induction l as [|z [|z' rest] IH]; simpl; [tauto|tauto|].
    intros [->|Hy]; [left; reflexivity|right; apply IH; exact Hy].
  - rewrite Hlog, removelast_last. exact Hbefore.
Qed.

End Runs.

(** ** The claims at sample inputs *)

Lemma accepting_accepts_all : accepts_all accepting.
Proof. intros log i. reflexivity. Qed.

(** C1 as stated fails: the complex update leaves [researchNeeds] out of the
    analysis issue, the strategic-analysis request on the same payload does not. *)
Lemma complex_update_drops_research :
  truthy (lookup "dashboardData" sample_fields) = true
  /\ truthy (lookup "strategicInsights" sample_fields) = true
  /\ truthy (lookup "projectUpdates" sample_fields) = true
  /\ nonempty accepting (lookup "emailRequests" sample_fields) = Some true
  /\ forallb accepted
       (snd (handler accepting (POST (set_field "action" (VStr "complex-update")
                                        sample_fields)))) = true
  /\ calls (handler accepting (POST (set_field "action" (VStr "complex-update")
                                       sample_fields)))
     <> (calls (handler accepting (POST (set_field "action" (VStr "dashboard-update")
                                           sample_fields)))
         ++ calls (handler accepting (POST (set_field "action" (VStr "strategic-analysis")
                                              sample_fields)))
         ++ calls (handler accepting (POST (set_field "action" (VStr "send-email")
                                              sample_fields))))%list.
Proof.
  repeat split; try reflexivity.
  intros H. vm_compute in H. discriminate H.
Qed.

Lemma complex_update_concatenates_witness :
  calls (handler accepting (POST (set_field "action" (VStr "complex-update") sample_fields)))
  = (calls (handler accepting (POST (set_field "action" (VStr "dashboard-update")
                                       sample_fields)))
     ++ calls (handler accepting (POST (set_field "action" (VStr "strategic-analysis")
                                          (without "researchNeeds" sample_fields))))
     ++ calls (handler accepting (POST (set_field "action" (VStr "send-email")
                                          sample_fields))))%list.
Proof.
  apply (complex_update_concatenates accepting sample_fields);
    [exact accepting_accepts_all|reflexivity..].
Defined.

(** C2 as stated fails: a send-email request without [emailRequests] is
    answered 500 although no outbound call failed. *)
Lemma send_email_without_requests :
  recognized (field (VObj [("action", VStr "send-email")]) "action") = true
  /\ forallb accepted (snd (handler accepting (POST (VObj [("action", VStr "send-email")]))))
     = true
  /\ handler accepting (POST (VObj [("action", VStr "send-email")]))
     = ({| status_code := 500; json_of := FailureBody "Processing failed" TypeError |}, []).
Proof. repeat split; reflexivity. Qed.

Lemma wellformed_request_succeeds_witness :
  fst (handler accepting (POST (set_field "action" (VStr "complex-update") sample_fields)))
  = {| status_code := 200;
       json_of := SuccessBody true "Strategic update processed successfully"
                    "2024-05-01T12:00:00.000Z" |}.
Proof.
  apply (wellformed_request_succeeds accepting
           (set_field "action" (VStr "complex-update") sample_fields)); reflexivity.
Defined.

Lemma strategic_analysis_calls_witness :
  length (calls (handler accepting
                   (POST (VObj [("action", VStr "strategic-analysis");
                                ("strategicInsights", VStr "Focus on the launch")]))))
  = 1%nat
  /\ length (calls (handler accepting
                      (POST (VObj [("action", VStr "strategic-analysis");
                                   ("strategicInsights", VStr long_insights);
                                   ("projectUpdates", VObj sample_updates)]))))
     = 2%nat.
Proof.
  split.
  - refine (proj1 (proj2 (strategic_analysis_calls accepting
                            (VObj [("action", VStr "strategic-analysis");
                                   ("strategicInsights", VStr "Focus on the launch")])
                            eq_refl eq_refl eq_refl))
              "Focus on the launch" eq_refl _).
    simpl. lia.
  - destruct (proj2 (proj2 (strategic_analysis_calls accepting
                              (VObj [("action", VStr "strategic-analysis");
                                     ("strategicInsights", VStr long_insights);
                                     ("projectUpdates", VObj sample_updates)])
                              eq_refl eq_refl eq_refl))
                long_insights eq_refl) as (first & second & Hcalls & _).
    + vm_compute. lia.
    + intros x Hx. vm_compute in Hx. injection Hx as <-. reflexivity.
    + rewrite Hcalls. reflexivity.
Defined.

Lemma send_email_calls_witness :
  map title (calls (handler accepting
                      (POST (VObj [("action", VStr "send-email");
                                   ("emailRequests", VArr sample_emails)]))))
  = ["[EMAIL] Launch plan"; "[EMAIL] Strategic Communication";
     "[EMAIL] Strategic Communication"].
Proof.
  destruct (send_email_calls accepting
              (VObj [("action", VStr "send-email"); ("emailRequests", VArr sample_emails)])
              sample_emails eq_refl eq_refl eq_refl eq_refl) as (_ & _ & Htitles).
  rewrite Htitles. reflexivity.
Defined.

(** Of three emails the second one is answered 422: the third one is not sent. *)
Lemma tracker_failure_aborts_witness :
  length (snd (handler rejecting_second
                 (POST (VObj [("action", VStr "send-email");
                              ("emailRequests", VArr sample_emails)])))) = 2%nat
  /\ fst (handler rejecting_second
            (POST (VObj [("action", VStr "send-email");
                         ("emailRequests", VArr sample_emails)])))
     = {| status_code := 500;
          json_of := FailureBody "Processing failed"
                       (Error "GitHub API error: 422 Validation Failed") |}.
Proof.
  split; [reflexivity|].
  match eval vm_compute in
        (snd (handler rejecting_second
                (POST (VObj [("action", VStr "send-email");
                             ("emailRequests", VArr sample_emails)])))) with
  | [?x1; ?x2] =>
      exact (proj2 (tracker_failure_aborts rejecting_second
                      (POST (VObj [("action", VStr "send-email");
                                   ("emailRequests", VArr sample_emails)]))
                      [x1] [] x2 unprocessable eq_refl eq_refl eq_refl))
  end.
Defined.

Lemma unknown_action_rejected_witness :
  handler accepting (POST (VObj [("action", VStr "archive");
                                 ("emailRequests", VArr sample_emails)]))
  = ({| status_code := 400; json_of := ErrorBody "Unknown action type" |}, [])
  /\ handler accepting (POST (VObj [("dashboardData", VObj [])]))
     = ({| status_code := 400; json_of := ErrorBody "Unknown action type" |}, []).
Proof.
  split.
  - apply (unknown_action_rejected accepting _ (VStr "archive")); reflexivity.
  - apply (unknown_action_rejected accepting _ VUndefined); reflexivity.
Defined.

Lemma formatProjectUpdates_lines_witness :
  formatProjectUpdates (VObj sample_updates)
  = Some ("**alpha:** 40% - on track" ++ nl
          ++ "**beta:** No progress specified% - Strategic context from conversation" ++ nl
          ++ "**gamma:** No progress specified% - Strategic context from conversation").
Proof.
  destruct (formatProjectUpdates_lines sample_updates eq_refl) as (_ & _ & Hlines).
  rewrite Hlines. reflexivity.
Defined.


Lemma falsy_fields_fall_back_witness :
  analysisContent (VStr "") "alpha: 40" (VStr "Market sizing")
  = Some (nl ++ "Strategic Analysis Update" ++ nl
          ++ nl ++ "## Key Insights" ++ nl
          ++ "Strategic insights from portfolio discussion" ++ nl
          ++ nl ++ "## Project Context Updates" ++ nl
          ++ "alpha: 40" ++ nl
          ++ nl ++ "## Additional Research Needed" ++ nl
          ++ "Market sizing" ++ nl
          ++ nl ++ "## Strategic Synthesis" ++ nl
          ++ "Cross-project implications and strategic positioning adjustments identified."
          ++ nl).
Proof.
  destruct (falsy_fields_fall_back accepting) as (_ & _ & _ & Hanalysis & _).
  rewrite (Hanalysis (VStr "") "alpha: 40" (VStr "Market sizing") eq_refl eq_refl).
  reflexivity.
Defined.

(** ** More of the handler at sample inputs *)

Lemma non_post_rejected_witness :
  handler accepting {| method := "GET"; req_body := VObj [("action", VStr "send-email")] |}
  = ({| status_code := 405; json_of := ErrorBody "Method not allowed" |}, []).
Proof. apply (non_post_rejected accepting). discriminate. Defined.

Lemma body_without_fields_fails_witness :
  handler accepting (POST VNull)
  = ({| status_code := 500; json_of := FailureBody "Processing failed" TypeError |}, []).
Proof. apply (body_without_fields_fails accepting). left. reflexivity. Defined.

Lemma success_means_all_accepted_witness :
  forallb accepted
    (snd (handler accepting (POST (set_field "action" (VStr "complex-update") sample_fields))))
  = true.
Proof. apply (success_means_all_accepted accepting). reflexivity. Defined.

Lemma failed_call_aborts_witness :
  fst (handler unreachable
         (POST (VObj [("action", VStr "send-email"); ("emailRequests", VArr sample_emails)])))
  = {| status_code := 500; json_of := FailureBody "Processing failed" TypeError |}
  /\ fst (handler garbled
            (POST (VObj [("action", VStr "send-email");
                         ("emailRequests", VArr sample_emails)])))
     = {| status_code := 500; json_of := FailureBody "Processing failed" SyntaxError |}.
Proof.
  split.
  - match eval vm_compute in
          (snd (handler unreachable
                  (POST (VObj [("action", VStr "send-email");
                               ("emailRequests", VArr sample_emails)])))) with
    | [?x] =>
        exact (proj2 (proj1 (failed_call_aborts unreachable
                               (POST (VObj [("action", VStr "send-email");
                                            ("emailRequests", VArr sample_emails)]))
                               [] [] x eq_refl) eq_refl))
    end.
  - match eval vm_compute in
          (snd (handler garbled
                  (POST (VObj [("action", VStr "send-email");
                               ("emailRequests", VArr sample_emails)])))) with
    | [?x] =>
        exact (proj2 (proj2 (failed_call_aborts garbled
                               (POST (VObj [("action", VStr "send-email");
                                            ("emailRequests", VArr sample_emails)]))
                               [] [] x eq_refl)
                        {| status := 200; text := "<html>"; json := None |}
                        eq_refl eq_refl eq_refl))
    end.
Defined.

Lemma complex_update_of_nothing_witness :
  handler unreachable
    (POST (VObj [("action", VStr "complex-update"); ("emailRequests", VArr []);
                 ("projectUpdates", VObj [("alpha", VNull)])]))
  = ({| status_code := 200;
        json_of := SuccessBody true "Strategic update processed successfully"
                     "2024-05-01T12:00:00.000Z" |}, []).
Proof.
  apply (complex_update_of_nothing unreachable); try reflexivity. right. reflexivity.
Defined.

Lemma complex_update_groups_witness :
  calls (handler accepting
           (POST (VObj [("action", VStr "complex-update");
                        ("emailRequests", VArr sample_emails)])))
  = map email_issue sample_emails.
Proof.
  apply (complex_update_groups accepting
           (VObj [("action", VStr "complex-update"); ("emailRequests", VArr sample_emails)]));
    reflexivity.
Defined.

Lemma send_email_not_iterable_witness :
  handler accepting (POST (VObj [("action", VStr "send-email");
                                 ("emailRequests", VObj [("subject", VStr "Launch plan")])]))
  = ({| status_code := 500; json_of := FailureBody "Processing failed" TypeError |}, []).
Proof. apply (send_email_not_iterable accepting); reflexivity. Defined.

Lemma send_email_in_order_witness :
  calls (handler rejecting_second
           (POST (VObj [("action", VStr "send-email");
                        ("emailRequests", VArr sample_emails)])))
  = firstn 2 (map email_issue sample_emails).
Proof.
  apply (send_email_in_order rejecting_second
           (VObj [("action", VStr "send-email"); ("emailRequests", VArr sample_emails)])
           sample_emails); reflexivity.
Defined.

Lemma send_email_stops_at_null_witness :
  fst (handler accepting
         (POST (VObj [("action", VStr "send-email");
                      ("emailRequests", VArr [VObj [("subject", VStr "Launch plan")];
                                              VNull; VObj []])])))
  = {| status_code := 500; json_of := FailureBody "Processing failed" TypeError |}
  /\ calls (handler accepting
              (POST (VObj [("action", VStr "send-email");
                           ("emailRequests", VArr [VObj [("subject", VStr "Launch plan")];
                                                   VNull; VObj []])])))
     = [email_issue (VObj [("subject", VStr "Launch plan")])].
Proof.
  apply (send_email_stops_at_null accepting
           (VObj [("action", VStr "send-email");
                  ("emailRequests", VArr [VObj [("subject", VStr "Launch plan")];
                                          VNull; VObj []])])
           [VObj [("subject", VStr "Launch plan")]] [VObj []]); reflexivity.
Defined.

Lemma formatDashboardUpdates_lines_witness :
  formatDashboardUpdates
    (VObj [("projects", VObj [("alpha", VNum 40); ("beta", VStr "paused")])])
  = Some ("alpha: 40" ++ nl ++ "beta: paused").
Proof.
  destruct (formatDashboardUpdates_lines
              [("projects", VObj [("alpha", VNum 40); ("beta", VStr "paused")])]
              [("alpha", VNum 40); ("beta", VStr "paused")] eq_refl eq_refl)
    as (_ & _ & _ & Hlines).
  rewrite Hlines. reflexivity.
Defined.

Lemma dashboard_update_issue_witness :
  length (calls (handler rejecting_second
                   (POST (VObj [("action", VStr "dashboard-update");
                                ("dashboardData", VObj [("currentFocus", VStr "launch")])]))))
  = 1%nat.
Proof.
  rewrite (dashboard_update_issue rejecting_second
             (VObj [("action", VStr "dashboard-update");
                    ("dashboardData", VObj [("currentFocus", VStr "launch")])])
             eq_refl eq_refl).
  reflexivity.
Defined.

Lemma empty_mapping_renders_nothing_witness :
  formatProjectUpdates (VObj []) = Some EmptyString
  /\ formatDashboardUpdates (VObj [("projects", VObj [])]) = Some EmptyString.
Proof.
  apply (empty_mapping_renders_nothing (VObj []) [("projects", VObj [])]); reflexivity.
Defined.

Lemma null_update_fails_witness :
  handler accepting (POST (VObj [("action", VStr "strategic-analysis");
                                 ("strategicInsights", VStr "Focus on the launch");
                                 ("projectUpdates", VObj [("alpha", VNull)])]))
  = ({| status_code := 500; json_of := FailureBody "Processing failed" TypeError |}, []).
Proof.
  apply (null_update_fails accepting
           (VObj [("action", VStr "strategic-analysis");
                  ("strategicInsights", VStr "Focus on the launch");
                  ("projectUpdates", VObj [("alpha", VNull)])])
           [("alpha", VNull)] "alpha"); try reflexivity.
  left. reflexivity.
Defined.

Lemma complex_update_ignores_research_witness :
  handler accepting
    (POST (set_field "researchNeeds" (VStr "Pricing")
             (("action", VStr "complex-update") :: sample_fields)))
  = handler accepting (POST (VObj (("action", VStr "complex-update") :: sample_fields))).
Proof. apply (complex_update_ignores_research accepting). reflexivity. Defined.

Lemma calls_bounded_witness :
  (length (calls (handler accepting
                    (POST (VObj [("action", VStr "strategic-analysis");
                                 ("strategicInsights", VArr [VNum 1; VNum 2])]))))
   <= 2)%nat.
Proof.
  apply (proj1 (proj2 (calls_bounded accepting
                         (VObj [("action", VStr "strategic-analysis");
                                ("strategicInsights", VArr [VNum 1; VNum 2])])))).
  reflexivity.
Defined.
